(** * django-vite: the asset loader of [django_vite/templatetags/django_vite.py]

    A shallow embedding of [DjangoViteAssetLoader] and of the two named
    tuples it works on, followed by the properties of the loader that the
    specification states.

    Conventions of the embedding.
    - A Python [dict] whose iteration order is observable (the manifest,
      the attributes of a tag, [**kwargs]) is an association list in
      insertion order with pairwise distinct keys, built with [dict_set].
      The two caches of the loader, [_configs] and [_manifests], are only
      ever looked up by key and are finite maps.
    - A method of the loader is a computation in the monad [M]: it reads
      and updates the loader and either returns a value or raises.
    - An exception carries the statement that raised it: the
      [RuntimeError]s of the methods are told apart by their constructor,
      and [runtime_error_message] renders the message of the source.
    - The class attribute [_instance] is threaded through [instance()] and
      the template tags: it holds the one loader, as the methods have left
      it.
    - What the module imports from Django, urllib, pathlib and the file
      system is collected in [Environment] and is never inspected.
    - The fields of the named tuples have the types of their annotations:
      strings, a Boolean, an integer, lists of strings, and for the two
      paths of a configuration a [pathlib.Path] or a string.
    - Python bounds the depth of recursion; the recursive walk over the
      manifest takes the depth that is left and raises [RecursionError]
      when there is none. *)

From Stdlib Require Import String Ascii List ZArith Lia DecimalString.
From stdpp Require Import base option gmap strings.
Import ListNotations.
Open Scope string_scope.
Open Scope list_scope.

(** ** Strings *)

Module Str.

(** The double quote of the f-strings. *)
Definition dquote : string := String (ascii_of_nat 34) EmptyString.

(** The line feed that joins the tags. *)
Definition newline : string := String (ascii_of_nat 10) EmptyString.

(** [sep.join(l)]. *)
Fixpoint join (sep : string) (l : list string) : string :=
  match l with
  | [] => EmptyString
  | [s] => s
  | s :: l' => s +:+ sep +:+ join sep l'
  end.

(** Truth value of a string: [if s]. *)
Definition truthy (s : string) : bool := negb (String.eqb s EmptyString).

(** [s.endswith(suffix)]. *)
Fixpoint endswith (s suffix : string) : bool :=
  String.eqb s suffix ||
  match s with
  | EmptyString => false
  | String _ s' => endswith s' suffix
  end.

(** [needle in hay]. *)
Fixpoint contains (needle hay : string) : bool :=
  String.prefix needle hay ||
  match hay with
  | EmptyString => false
  | String _ hay' => contains needle hay'
  end.

(** [str(n)] of an [int]. *)
Definition of_int (n : Z) : string := NilEmpty.string_of_int (Z.to_int n).

(** [part] occurs in [s]. *)
Definition occurs (part s : string) : Prop :=
  exists before after, s = before +:+ part +:+ after.

(** [x in l] for a list of strings. *)
Definition mem (x : string) (l : list string) : bool :=
  existsb (String.eqb x) l.

End Str.

(** ** Dictionaries in insertion order *)

Definition dict (V : Type) : Type := list (string * V).

Section Dict.
Context {V : Type}.

(** [d.get(k)], and [d[k]] when it is [Some]. *)
Fixpoint dict_get (k : string) (d : dict V) : option V :=
  match d with
  | [] => None
  | (k', v) :: d' => if String.eqb k k' then Some v else dict_get k d'
  end.

(** [k in d]. *)
Definition dict_mem (k : string) (d : dict V) : bool :=
  match dict_get k d with Some _ => true | None => false end.

(** [d[k] = v]: a key that is present keeps its place. *)
Fixpoint dict_set (d : dict V) (k : string) (v : V) : dict V :=
  match d with
  | [] => [(k, v)]
  | (k', v') :: d' =>
      if String.eqb k k' then (k', v) :: d' else (k', v') :: dict_set d' k v
  end.

(** [{**d, **other}], also [dict(pairs)] from the empty dictionary. *)
Definition dict_update (d : dict V) (other : list (string * V)) : dict V :=
  fold_left (fun acc kv => dict_set acc (fst kv) (snd kv)) other d.

Definition dict_keys (d : dict V) : list string := map fst d.

End Dict.

(** ** Paths *)

(** A value of type [Union[Path, str]]: a [pathlib.Path], held as the
    text that [str()] makes of it, or a string. *)
Inductive path_or_str : Type :=
| IsPath (text : string)
| IsStr (text : string).

(** What [open()] and an f-string make of such a value. *)
Definition fspath (p : path_or_str) : string :=
  match p with
  | IsPath text => text
  | IsStr text => text
  end.

(** Truth value: [if p]. A [Path] has neither [__bool__] nor [__len__]
    and is true; a string is true when it is not empty. *)
Definition path_truthy (p : path_or_str) : bool :=
  match p with
  | IsPath _ => true
  | IsStr text => Str.truthy text
  end.

(** ** The named tuples *)

(** An entry for a file inside the manifest. *)
Record DjangoViteManifest : Type := {
  file : string;
  src : string;
  isEntry : bool;
  css : list string;
  imports : list string
}.

(** The parsed manifest: [Dict[str, DjangoViteManifest]]. *)
Definition Manifest : Type := dict DjangoViteManifest.

(** The configuration structure. *)
Record DjangoViteConfig : Type := {
  assets_path : path_or_str;
  dev_mode : bool;
  dev_server_protocol : string;
  dev_server_host : string;
  dev_server_port : Z;
  ws_client_url : string;
  static_url_prefix : string;
  legacy_polyfills_motif : string;
  manifest_path : path_or_str;
  react_refresh_url : string
}.

(** ** Exceptions *)

(** The [raise RuntimeError(...)] statements of the module. *)
Inductive runtime_error : Type :=
| CannotFindConfiguration (config_key : string)
| CannotReadManifest (manifest_path error : string)
| CannotFindInManifest (path manifest_path : string)
| LegacyPolyfillsNotFound (manifest_path : string).

Inductive exception : Type :=
| RuntimeError (reason : runtime_error)
| KeyError (key : string)
| AttributeError (type_name attribute : string)
| TypeError (message : string)
| RecursionError.

(** The message a [RuntimeError] is raised with. *)
Definition runtime_error_message (r : runtime_error) : string :=
  match r with
  | CannotFindConfiguration config_key =>
      "Cannot find " +:+ Str.dquote +:+ config_key +:+ Str.dquote
        +:+ " configuration"
  | CannotReadManifest manifest_path error =>
      "Cannot read Vite manifest file at " +:+ manifest_path
        +:+ " : " +:+ error
  | CannotFindInManifest path manifest_path =>
      "Cannot find " +:+ path +:+ " in Vite manifest at " +:+ manifest_path
  | LegacyPolyfillsNotFound manifest_path =>
      "Vite legacy polyfills not found in manifest at " +:+ manifest_path
  end.

Inductive result (A : Type) : Type :=
| Return (a : A)
| Raise (e : exception).
Arguments Return {A} a.
Arguments Raise {A} e.

(** ** What the module imports *)

(** What [open], [read], [json.loads] and the constructor of
    [DjangoViteManifest] make of the file at a path: the members of the
    document in the order of the document, or the exception they raise,
    as [str(error)]. *)
Inductive manifest_file : Type :=
| Unreadable (error : string)
| Document (members : list (string * DjangoViteManifest)).

Record Environment : Type := {
  (** [settings.STATIC_URL] and [settings.STATIC_ROOT], both set to a
      string *)
  STATIC_URL : string;
  STATIC_ROOT : string;
  (** [urllib.parse.urljoin] *)
  urljoin : string -> string -> string;
  (** [str(Path(a) / b)] *)
  path_join : string -> string -> string;
  (** [staticfiles_storage.url] when
      [apps.is_installed("django.contrib.staticfiles")] *)
  staticfiles_storage_url : option (string -> string);
  (** the file system, through [_parse_manifest] *)
  read_manifest_file : string -> manifest_file;
  (** the depth of recursion that is left when a method is entered *)
  recursion_limit : nat
}.

(** ** The loader and its monad *)

(** The instance that [instance()] creates: its three attributes. *)
Record DjangoViteAssetLoader : Type := {
  _configs : gmap string DjangoViteConfig;
  _manifests : gmap string Manifest;
  _static_urls : gmap string string
}.

(** A method: from the loader to a value or an exception, and the loader
    after the call. *)
Definition M (A : Type) : Type :=
  DjangoViteAssetLoader -> result A * DjangoViteAssetLoader.

Definition ret {A : Type} (a : A) : M A := fun self => (Return a, self).

Definition raise {A : Type} (e : exception) : M A :=
  fun self => (Raise e, self).

Definition bind {A B : Type} (c : M A) (k : A -> M B) : M B :=
  fun self =>
    match c self with
    | (Return a, self') => k a self'
    | (Raise e, self') => (Raise e, self')
    end.

Notation "'let*' x ':=' c 'in' k" := (bind c (fun x => k))
  (at level 10, x pattern, c at level 100, k at level 200).

(** [for x in l: acc = body(acc, x)]. *)
Fixpoint for_each {A B : Type} (l : list A) (acc : B) (body : B -> A -> M B)
  : M B :=
  match l with
  | [] => ret acc
  | x :: l' => let* acc' := body acc x in for_each l' acc' body
  end.

(** The value of an expression that can only raise [TypeError]:
    [inl message] stands for [raise TypeError(message)]. *)
Definition or_TypeError {A : Type} (r : string + A) : M A :=
  match r with
  | inl message => raise (TypeError message)
  | inr a => ret a
  end.

(** [d[k]]. *)
Definition getitem {V : Type} (d : dict V) (k : string) : M V :=
  match dict_get k d with
  | Some v => ret v
  | None => raise (KeyError k)
  end.

(** [manifest.imports]: a [dict] has no such attribute. *)
Definition dict_getattr {A : Type} (attribute : string) : M A :=
  raise (AttributeError "dict" attribute).

(** [self._manifest]: the loader has [_configs], [_manifests] and
    [_static_urls], and no other data attribute. *)
Definition loader_getattr {A : Type} (attribute : string) : M A :=
  raise (AttributeError "DjangoViteAssetLoader" attribute).

(** [content[key]] with a string, on a named tuple. *)
Definition namedtuple_getitem {A : Type} (content : DjangoViteManifest)
    (key : string) : M A :=
  raise (TypeError "tuple indices must be integers or slices, not str").

(** ** The tag generators *)

(** One attribute: the key, the equals sign, the value in double quotes. *)
Definition attr_str (kv : string * string) : string :=
  fst kv +:+ "=" +:+ Str.dquote +:+ snd kv +:+ Str.dquote.

(** The attributes of a tag, joined by a space. *)
Definition attrs_str (attrs : dict string) : string :=
  Str.join " " (map attr_str attrs).

Definition _generate_script_tag (src : string) (attrs : dict string) : string :=
  "<script " +:+ attrs_str attrs +:+ " src=" +:+ Str.dquote +:+ src
    +:+ Str.dquote +:+ "></script>".

Definition _generate_stylesheet_tag (href : string) : string :=
  "<link rel=" +:+ Str.dquote +:+ "stylesheet" +:+ Str.dquote +:+ " href="
    +:+ Str.dquote +:+ href +:+ Str.dquote +:+ " />".

Definition _generate_stylesheet_preload_tag (href : string) : string :=
  "<link rel=" +:+ Str.dquote +:+ "preload" +:+ Str.dquote +:+ " href="
    +:+ Str.dquote +:+ href +:+ Str.dquote +:+ " as=" +:+ Str.dquote
    +:+ "style" +:+ Str.dquote +:+ " />".

Definition _generate_preload_tag (href : string) (attrs : dict string)
  : string :=
  "<link href=" +:+ Str.dquote +:+ href +:+ Str.dquote +:+ " "
    +:+ attrs_str attrs +:+ " />".

(** The attributes of the module preload links. *)
Definition preload_attrs : dict string :=
  [("type", "text/javascript"); ("crossorigin", "anonymous");
   ("rel", "modulepreload"); ("as", "script")].

(** The [scripts_attrs] of [generate_vite_asset]: [type] is [module],
    [crossorigin] is empty, then [**kwargs]. *)
Definition module_scripts_attrs (kwargs : dict string) : dict string :=
  dict_update [("type", "module"); ("crossorigin", EmptyString)] kwargs.

(** The [scripts_attrs] of the legacy tags: [nomodule] and [crossorigin]
    are empty, then [**kwargs]. *)
Definition nomodule_scripts_attrs (kwargs : dict string) : dict string :=
  dict_update [("nomodule", EmptyString); ("crossorigin", EmptyString)] kwargs.

(** One pass of the loop over [manifest_entry.css]: a tag for every path
    that is not in [already_processed], every path appended to it. The
    walk instantiates [emit] with the tag of the URL of the path. *)
Definition css_loop {T : Type} (emit : string -> T) (css : list string)
    (tags : list T) (already_processed : list string)
  : list T * list string :=
  fold_left
    (fun acc css_path =>
       ((if Str.mem css_path (snd acc) then fst acc
         else fst acc ++ [emit css_path]),
        snd acc ++ [css_path]))
    css (tags, already_processed).

Section Loader.
Variable env : Environment.

(** *** Properties of a configuration *)

Definition static_url (config : DjangoViteConfig) : string :=
  let url := urljoin env (STATIC_URL env) (static_url_prefix config) in
  if Str.endswith url "/" then url else url +:+ "/".

Definition static_root (config : DjangoViteConfig) : path_or_str :=
  if dev_mode config then assets_path config
  else IsPath (path_join env (STATIC_ROOT env) (static_url_prefix config)).

(** [a / b] with a string [b]: a [Path] is joined to it; a string has no
    such operator. *)
Definition truediv (a : path_or_str) (b : string) : string + path_or_str :=
  match a with
  | IsPath text => inr (IsPath (path_join env text b))
  | IsStr _ => inl "unsupported operand type(s) for /: 'str' and 'str'"
  end.

Definition get_computed_manifest_path (config : DjangoViteConfig)
  : string + path_or_str :=
  if path_truthy (manifest_path config) then inr (manifest_path config)
  else truediv (static_root config) "manifest.json".

(** *** URLs *)

Definition _generate_vite_server_url (path : string)
    (config : DjangoViteConfig) : string :=
  urljoin env
    (dev_server_protocol config +:+ "://" +:+ dev_server_host config
       +:+ ":" +:+ Str.of_int (dev_server_port config))
    (urljoin env (static_url config) path).

Definition _generate_production_server_url (path static_url_prefix : string)
  : string :=
  let production_server_url :=
    if Str.truthy static_url_prefix then
      let prefix :=
        if Str.endswith static_url_prefix "/" then static_url_prefix
        else static_url_prefix +:+ "/" in
      urljoin env prefix path
    else path in
  match staticfiles_storage_url env with
  | Some url => url production_server_url
  | None => production_server_url
  end.

(** *** Configurations and manifests *)

Definition _get_config (config_key : string) : M DjangoViteConfig :=
  fun self =>
    match _configs self !! config_key with
    | None => (Raise (RuntimeError (CannotFindConfiguration config_key)), self)
    | Some config => (Return config, self)
    end.

(** The handler [except Exception as error] takes [str(error)]; it makes
    its message with a second call of [get_computed_manifest_path], which
    raises when the call inside [try] has raised. *)
Definition _parse_manifest (config_key : string) : M Manifest :=
  let* config := _get_config config_key in
  let except (error : string) : M Manifest :=
    let* manifest_path := or_TypeError (get_computed_manifest_path config) in
    raise (RuntimeError (CannotReadManifest (fspath manifest_path) error)) in
  (* try *)
  match get_computed_manifest_path config with
  | inl error => except error
  | inr manifest_path =>
      match read_manifest_file env (fspath manifest_path) with
      | Document members => ret (dict_update [] members)
      | Unreadable error => except error
      end
  end.

(** [self._manifests[config_key] = manifest]. *)
Definition store_manifest (config_key : string) (manifest : Manifest)
  : M unit :=
  fun self =>
    (Return tt,
     {| _configs := _configs self;
        _manifests := <[config_key := manifest]> (_manifests self);
        _static_urls := _static_urls self |}).

Definition _get_manifest (config_key : string) : M Manifest :=
  fun self =>
    match _manifests self !! config_key with
    | Some manifest => (Return manifest, self)
    | None =>
        (let* manifest := _parse_manifest config_key in
         let* _ := store_manifest config_key manifest in
         ret manifest) self
    end.

(** *** The walk over the CSS files of an asset and of its imports *)

(** [depth] is the depth of recursion that is left. The list
    [already_processed] is shared by all the calls of one walk: a call
    returns it as it has left it, next to its tags. *)
Fixpoint _generate_css_files_of_asset (depth : nat) (path : string)
    (already_processed : list string) (tag_generator : string -> string)
    (config_key : string) : M (list string * list string) :=
  match depth with
  | O => raise RecursionError
  | S depth' =>
      let tags := [] in
      let* config := _get_config config_key in
      let* manifest := _get_manifest config_key in
      let* manifest_entry := getitem manifest path in
      let* walked :=
        for_each (imports manifest_entry) (tags, already_processed)
          (fun acc import_path =>
             let* sub :=
               _generate_css_files_of_asset depth' import_path (snd acc)
                 tag_generator config_key in
             ret (fst acc ++ fst sub, snd sub)) in
      ret (css_loop
             (fun css_path =>
                tag_generator
                  (_generate_production_server_url css_path
                     (static_url_prefix config)))
             (css manifest_entry) (fst walked) (snd walked))
  end.

Definition _preload_css_files_of_asset (depth : nat) (path : string)
    (already_processed : list string) (config_key : string)
  : M (list string * list string) :=
  _generate_css_files_of_asset depth path already_processed
    _generate_stylesheet_preload_tag config_key.

Definition _load_css_files_of_asset (depth : nat) (path : string)
    (already_processed : list string) (config_key : string)
  : M (list string * list string) :=
  _generate_css_files_of_asset depth path already_processed
    _generate_stylesheet_tag config_key.

(** *** The public methods *)

(** [generate_vite_asset] from [tags = []] to the script tag: the tags of
    the CSS files of the asset and of its imports, then the script with
    [scripts_attrs]. *)
Definition css_and_script_tags (path config_key : string)
    (kwargs : dict string) (static_url : string) (manifest : Manifest)
  : M (list string) :=
  let tags := [] in
  let scripts_attrs := module_scripts_attrs kwargs in
  (* Add dependent CSS *)
  let* css_tags :=
    _load_css_files_of_asset (recursion_limit env) path [] config_key in
  let tags := tags ++ fst css_tags in
  (* Add the script by itself *)
  let* manifest_entry := getitem manifest path in
  ret (tags ++ [_generate_script_tag
                  (urljoin env static_url (file manifest_entry))
                  scripts_attrs]).

(** The body of the loop of [generate_vite_asset] over the imports. *)
Definition preload_import (config : DjangoViteConfig) (tags : list string)
    (dep : string) : M (list string) :=
  let* _manifest := loader_getattr (A := dict (dict string)) "_manifest" in
  let* dep_manifest_entry := getitem _manifest dep in
  let* dep_file := getitem dep_manifest_entry "file" in
  let url :=
    _generate_production_server_url dep_file (static_url_prefix config) in
  ret (tags ++ [_generate_preload_tag url preload_attrs]).

Definition generate_vite_asset (path config_key : string)
    (kwargs : dict string) : M string :=
  let* config := _get_config config_key in
  let static_url := static_url config in
  if dev_mode config then
    ret (_generate_script_tag
           (_generate_vite_server_url path config)
           (dict_update [("type", "module")] kwargs))
  else
    let* manifest := _get_manifest config_key in
    if negb (dict_mem path manifest) then
      let* manifest_path := or_TypeError (get_computed_manifest_path config) in
      raise (RuntimeError (CannotFindInManifest path (fspath manifest_path)))
    else
      let* tags :=
        css_and_script_tags path config_key kwargs static_url manifest in
      (* Preload imports *)
      let* deps := dict_getattr (A := list string) "imports" in
      let* tags := for_each deps tags (preload_import config) in
      ret (Str.join Str.newline tags).

Definition preload_vite_asset (path config_key : string) : M string :=
  let tags := [] in
  let* config := _get_config config_key in
  let* manifest := _get_manifest config_key in
  let* manifest_entry := getitem manifest path in
  if negb (dev_mode config) then ret EmptyString
  else if negb (dict_mem path manifest) then
    let* manifest_path := or_TypeError (get_computed_manifest_path config) in
    raise (RuntimeError (CannotFindInManifest path (fspath manifest_path)))
  else
    (* Add the script by itself *)
    let script_attrs := preload_attrs in
    let manifest_file := file manifest_entry in
    let url :=
      _generate_production_server_url manifest_file
        (static_url_prefix config) in
    let tags := tags ++ [_generate_preload_tag url script_attrs] in
    (* Add dependent CSS *)
    let* css_tags :=
      _preload_css_files_of_asset (recursion_limit env) path [] config_key in
    let tags := tags ++ fst css_tags in
    (* Preload imports *)
    let* tags :=
      for_each (imports manifest_entry) tags
        (fun tags dependency_path =>
           let* dependency := getitem manifest dependency_path in
           let dependency_file := file dependency in
           let url :=
             _generate_production_server_url dependency_file
               (static_url_prefix config) in
           ret (tags ++ [_generate_preload_tag url script_attrs])) in
    ret (Str.join Str.newline tags).

Definition generate_vite_asset_url (path config_key : string) : M string :=
  let* config := _get_config config_key in
  if dev_mode config then ret (_generate_vite_server_url path config)
  else
    let* manifest := _get_manifest config_key in
    if negb (dict_mem path manifest) then
      let* manifest_path := or_TypeError (get_computed_manifest_path config) in
      raise (RuntimeError (CannotFindInManifest path (fspath manifest_path)))
    else
      let* _manifest :=
        loader_getattr (A := dict (dict string)) "_manifest" in
      let* manifest_entry := getitem _manifest path in
      let* manifest_file := getitem manifest_entry "file" in
      ret (_generate_production_server_url manifest_file
             (static_url_prefix config)).

(** The loop of [generate_vite_legacy_polyfills] over [manifest.items()],
    with the [raise] that follows it. *)
Fixpoint legacy_polyfills_scan (config : DjangoViteConfig)
    (scripts_attrs : dict string)
    (items : list (string * DjangoViteManifest)) : M string :=
  match items with
  | [] =>
      let* manifest_path := or_TypeError (get_computed_manifest_path config) in
      raise (RuntimeError (LegacyPolyfillsNotFound (fspath manifest_path)))
  | (path, content) :: items' =>
      if Str.contains (legacy_polyfills_motif config) path then
        let* content_file := namedtuple_getitem (A := string) content "file" in
        ret (_generate_script_tag
               (_generate_production_server_url content_file
                  (static_url_prefix config))
               scripts_attrs)
      else legacy_polyfills_scan config scripts_attrs items'
  end.

Definition generate_vite_legacy_polyfills (config_key : string)
    (kwargs : dict string) : M string :=
  let* config := _get_config config_key in
  let* manifest := _get_manifest config_key in
  if dev_mode config then ret EmptyString
  else
    let scripts_attrs := nomodule_scripts_attrs kwargs in
    legacy_polyfills_scan config scripts_attrs manifest.

Definition generate_vite_legacy_asset (path config_key : string)
    (kwargs : dict string) : M string :=
  let* config := _get_config config_key in
  if dev_mode config then ret EmptyString
  else
    let* manifest := _get_manifest config_key in
    if negb (dict_mem path manifest) then
      let* manifest_path := or_TypeError (get_computed_manifest_path config) in
      raise (RuntimeError (CannotFindInManifest path (fspath manifest_path)))
    else
      let scripts_attrs := nomodule_scripts_attrs kwargs in
      let* manifest_entry := getitem manifest path in
      let url :=
        _generate_production_server_url (file manifest_entry)
          (static_url_prefix config) in
      ret (_generate_script_tag url scripts_attrs).

End Loader.

(** ** The import graph of a manifest and the trace of the walk *)

Definition result_map {A B : Type} (f : A -> B) (r : result A) : result B :=
  match r with
  | Return a => Return (f a)
  | Raise e => Raise e
  end.

(** [b] is listed in the [imports] of the entry at [a]. *)
Definition imports_edge (manifest : Manifest) (a b : string) : Prop :=
  exists entry, dict_get a manifest = Some entry /\ In b (imports entry).

(** [c] is listed in the [css] of the entry at [n]. *)
Definition has_css (manifest : Manifest) (n c : string) : Prop :=
  exists entry, dict_get n manifest = Some entry /\ In c (css entry).

(** Every import is a key of the manifest. *)
Definition imports_closed (manifest : Manifest) : Prop :=
  forall a b, imports_edge manifest a b -> dict_mem b manifest = true.

(** No entry imports itself, directly or through other entries. *)
Definition acyclic (manifest : Manifest) : Prop :=
  forall n, ~ tc (imports_edge manifest) n n.

(** The same for the entries that [path] reaches. *)
Definition acyclic_from (manifest : Manifest) (path : string) : Prop :=
  forall n, rtc (imports_edge manifest) path n ->
            ~ tc (imports_edge manifest) n n.

(** There are [k] imports in a row that start at [path]. *)
Inductive import_chain (manifest : Manifest) : string -> nat -> Prop :=
| chain_here path : import_chain manifest path 0
| chain_next path import_path k :
    imports_edge manifest path import_path ->
    import_chain manifest import_path k ->
    import_chain manifest path (S k).

(** [x] occurs in [l] at some place before some occurrence of [y]. *)
Definition precedes {A : Type} (x y : A) (l : list A) : Prop :=
  exists l1 l2 l3, l = l1 ++ x :: l2 ++ y :: l3.

(** The loop of the walk over [manifest_entry.imports], in [result]. *)
Fixpoint fold_imports {T : Type}
    (walk : string -> list string -> result (list T * list string))
    (import_paths : list string) (acc : list T * list string)
  : result (list T * list string) :=
  match import_paths with
  | [] => Return acc
  | import_path :: rest =>
      match walk import_path (snd acc) with
      | Raise e => Raise e
      | Return sub => fold_imports walk rest (fst acc ++ fst sub, snd sub)
      end
  end.

(** The trace of [_generate_css_files_of_asset] on a loaded manifest: in
    place of each tag, the key of the entry whose loop appends the tag and
    the CSS path the tag is for ([walk_emissions] below relates the two). *)
Fixpoint css_emissions (depth : nat) (manifest : Manifest) (path : string)
    (already_processed : list string)
  : result (list (string * string) * list string) :=
  match depth with
  | O => Raise RecursionError
  | S depth' =>
      match dict_get path manifest with
      | None => Raise (KeyError path)
      | Some manifest_entry =>
          match fold_imports (css_emissions depth' manifest)
                  (imports manifest_entry) ([], already_processed) with
          | Raise e => Raise e
          | Return walked =>
              Return (css_loop (fun css_path => (path, css_path))
                        (css manifest_entry) (fst walked) (snd walked))
          end
      end
  end.

(** The tag that the walk appends for an element of the trace. *)
Definition emission_tag (env : Environment) (config : DjangoViteConfig)
    (tag_generator : string -> string) (emission : string * string) : string :=
  tag_generator
    (_generate_production_server_url env (snd emission)
       (static_url_prefix config)).

(** The loader holds [config] and the parsed [manifest] for [config_key]. *)
Definition loaded (self : DjangoViteAssetLoader) (config_key : string)
    (config : DjangoViteConfig) (manifest : Manifest) : Prop :=
  _configs self !! config_key = Some config /\
  _manifests self !! config_key = Some manifest.

(** Checks, by evaluation, that [rank] decreases along every import and
    that every import is a key. *)
Definition ranked (rank : string -> nat) (manifest : Manifest) : bool :=
  forallb
    (fun kv =>
       forallb (fun i => Nat.ltb (rank i) (rank (fst kv))) (imports (snd kv)))
    manifest.

Definition closed (manifest : Manifest) : bool :=
  forallb
    (fun kv => forallb (fun i => dict_mem i manifest) (imports (snd kv)))
    manifest.







(** What a walk from [already_processed] over the entries [roots] and
    their imports has done when it returns the trace [trace] and the list
    [processed]. *)
Definition walk_inv (manifest : Manifest) (roots : list string)
    (already_processed : list string) (trace : list (string * string))
    (processed : list string) : Prop :=
  incl already_processed processed /\
  (forall n c, In (n, c) trace ->
     (exists r, In r roots /\ rtc (imports_edge manifest) r n) /\
     has_css manifest n c /\ ~ In c already_processed /\ In c processed) /\
  (forall c, In c processed ->
     In c already_processed \/ In c (map snd trace)) /\
  (forall r n c, In r roots -> rtc (imports_edge manifest) r n ->
     has_css manifest n c -> In c processed) /\
  List.NoDup (map snd trace) /\
  (forall n c d c', In (n, c) trace ->
     tc (imports_edge manifest) n d -> has_css manifest d c' ->
     In c' already_processed \/ exists e, precedes (e, c') (n, c) trace).

(** ** Concrete manifests, configurations and loaders *)

Module Example.

(** [urljoin] where the base is empty or ends with a slash and the
    second argument is a relative path without dot segments. *)
Definition join_url (base url : string) : string :=
  if String.eqb base EmptyString then url
  else if String.eqb url EmptyString then base
  else base +:+ url.

(** Joining a directory and a relative path. *)
Definition join_path (a b : string) : string :=
  if Str.endswith a "/" then a +:+ b else a +:+ "/" +:+ b.

Definition environment (document : manifest_file) : Environment :=
  {| STATIC_URL := "/";
     STATIC_ROOT := "/srv/www";
     urljoin := join_url;
     path_join := join_path;
     staticfiles_storage_url := None;
     read_manifest_file := fun _ => document;
     recursion_limit := 1000 |}.

(** The defaults of [DjangoViteConfig], with [static_url_prefix] set and
    a [Path] for the assets. *)
Definition config (dev : bool) : DjangoViteConfig :=
  {| assets_path := IsPath "/srv/assets";
     dev_mode := dev;
     dev_server_protocol := "http";
     dev_server_host := "localhost";
     dev_server_port := 3000;
     ws_client_url := "@vite/client";
     static_url_prefix := "static/";
     legacy_polyfills_motif := "legacy-polyfills";
     manifest_path := IsStr EmptyString;
     react_refresh_url := "@react-refresh" |}.

(** The loader after [instance()]: one configuration, nothing parsed. *)
Definition loader (dev : bool) : DjangoViteAssetLoader :=
  {| _configs := {[ "default" := config dev ]};
     _manifests := ∅;
     _static_urls := ∅ |}.

(** The loader with a manifest already parsed. *)
Definition loader_with (dev : bool) (manifest : Manifest)
  : DjangoViteAssetLoader :=
  {| _configs := {[ "default" := config dev ]};
     _manifests := {[ "default" := manifest ]};
     _static_urls := ∅ |}.

(** The manifest of the example of the specification. *)
Definition main_js : DjangoViteManifest :=
  {| file := "main.abc123.js"; src := "main.js"; isEntry := true;
     css := ["main.css"]; imports := ["shared.js"] |}.

Definition shared_js : DjangoViteManifest :=
  {| file := "shared.def456.js"; src := "shared.js"; isEntry := false;
     css := ["shared.css"]; imports := [] |}.

Definition manifest : Manifest :=
  [("main.js", main_js); ("shared.js", shared_js)].

Definition rank (path : string) : nat :=
  if String.eqb path "main.js" then 1 else 0.

(** Two entries that import each other. *)
Definition a_js : DjangoViteManifest :=
  {| file := "a.111.js"; src := "a.js"; isEntry := true;
     css := ["a.css"]; imports := ["b.js"] |}.

Definition b_js : DjangoViteManifest :=
  {| file := "b.222.js"; src := "b.js"; isEntry := false;
     css := ["b.css"]; imports := ["a.js"] |}.

Definition cyclic_manifest : Manifest := [("a.js", a_js); ("b.js", b_js)].

(** An entry with two imports that share an import and a stylesheet. *)
Definition entry_js : DjangoViteManifest :=
  {| file := "entry.000.js"; src := "entry.js"; isEntry := true;
     css := ["shared.css"; "entry.css"];
     imports := ["left.js"; "right.js"] |}.

Definition left_js : DjangoViteManifest :=
  {| file := "left.111.js"; src := "left.js"; isEntry := false;
     css := ["shared.css"; "left.css"]; imports := ["base.js"] |}.

Definition right_js : DjangoViteManifest :=
  {| file := "right.222.js"; src := "right.js"; isEntry := false;
     css := ["right.css"; "shared.css"]; imports := ["base.js"] |}.

Definition base_js : DjangoViteManifest :=
  {| file := "base.333.js"; src := "base.js"; isEntry := false;
     css := ["base.css"]; imports := [] |}.

Definition diamond_manifest : Manifest :=
  [("entry.js", entry_js); ("left.js", left_js); ("right.js", right_js);
   ("base.js", base_js)].

Definition diamond_rank (path : string) : nat :=
  if String.eqb path "entry.js" then 2
  else if String.eqb path "base.js" then 0
  else 1.

(** Two keys that contain the motif of the legacy polyfills. *)
Definition polyfills_first : DjangoViteManifest :=
  {| file := "polyfills-legacy.aaa.js"; src := "vite/legacy-polyfills-legacy";
     isEntry := true; css := []; imports := [] |}.

Definition polyfills_second : DjangoViteManifest :=
  {| file := "polyfills-legacy.bbb.js"; src := "other/legacy-polyfills";
     isEntry := true; css := []; imports := [] |}.

Definition polyfills_manifest : Manifest :=
  [("vite/legacy-polyfills-legacy", polyfills_first);
   ("main.js", main_js);
   ("shared.js", shared_js);
   ("other/legacy-polyfills", polyfills_second)].

End Example.

(** ** The singleton and the template tags *)

Definition DEFAULT_CONFIG_KEY : string := "default".

(** The keyword arguments of a call of the constructor of
    [DjangoViteConfig]: the fields that are given, and the keywords that
    name no field, in the order of the call. *)
Record config_values : Type := {
  given_assets_path : option path_or_str;
  given_dev_mode : option bool;
  given_dev_server_protocol : option string;
  given_dev_server_host : option string;
  given_dev_server_port : option Z;
  given_ws_client_url : option string;
  given_static_url_prefix : option string;
  given_legacy_polyfills_motif : option string;
  given_manifest_path : option path_or_str;
  given_react_refresh_url : option string;
  unexpected_keywords : list string
}.

(** The constructor with keyword arguments: a keyword that names no field
    and a missing [assets_path] raise [TypeError]; the other fields have
    the defaults of the class. *)
Definition new_DjangoViteConfig (values : config_values)
  : result DjangoViteConfig :=
  match unexpected_keywords values with
  | keyword :: _ =>
      Raise (TypeError
               ("__new__() got an unexpected keyword argument '" +:+ keyword
                  +:+ "'"))
  | [] =>
      match given_assets_path values with
      | None =>
          Raise (TypeError
                   "__new__() missing 1 required positional argument: 'assets_path'")
      | Some assets_path =>
          Return
            {| assets_path := assets_path;
               dev_mode := default false (given_dev_mode values);
               dev_server_protocol :=
                 default "http" (given_dev_server_protocol values);
               dev_server_host :=
                 default "localhost" (given_dev_server_host values);
               dev_server_port := default 3000%Z (given_dev_server_port values);
               ws_client_url :=
                 default "@vite/client" (given_ws_client_url values);
               static_url_prefix :=
                 default EmptyString (given_static_url_prefix values);
               legacy_polyfills_motif :=
                 default "legacy-polyfills"
                   (given_legacy_polyfills_motif values);
               manifest_path :=
                 default (IsStr EmptyString) (given_manifest_path values);
               react_refresh_url :=
                 default "@react-refresh" (given_react_refresh_url values) |}
      end
  end.

(** A value of the dictionary [settings.DJANGO_VITE]: a configuration, a
    dictionary of keyword arguments, or anything else. *)
Inductive config_setting : Type :=
| ConfigObject (config : DjangoViteConfig)
| ConfigDict (values : config_values)
| ConfigOther.

(** What [instance()] reads of the settings: [DJANGO_VITE] when the
    settings have it, and the settings of the older releases, each when
    the settings have it. *)
Record Settings : Type := {
  DJANGO_VITE : option (list (string * config_setting));
  DJANGO_VITE_DEV_MODE : option bool;
  DJANGO_VITE_DEV_SERVER_PROTOCOL : option string;
  DJANGO_VITE_DEV_SERVER_HOST : option string;
  DJANGO_VITE_DEV_SERVER_PORT : option Z;
  DJANGO_VITE_WS_CLIENT_URL : option string;
  DJANGO_VITE_ASSETS_PATH : option path_or_str;
  DJANGO_VITE_STATIC_URL_PREFIX : option string;
  DJANGO_VITE_MANIFEST_PATH : option path_or_str;
  DJANGO_VITE_LEGACY_POLYFILLS_MOTIF : option string
}.

(** What a template tag raises: the [RuntimeError] of [instance()] for a
    value of [DJANGO_VITE] that it cannot read, or an exception of the
    constructor of a configuration or of a method of the loader. *)
Inductive tag_exception : Type :=
| CannotReadConfiguration (config_key : string)
| Raised (e : exception).

Definition cannot_read_configuration_message (config_key : string) : string :=
  "Cannot read configuration for key '" +:+ config_key +:+ "'".

(** [self._configs[config_key] = config]. *)
Definition store_config (config_key : string) (config : DjangoViteConfig)
    (self : DjangoViteAssetLoader) : DjangoViteAssetLoader :=
  {| _configs := <[config_key := config]> (_configs self);
     _manifests := _manifests self;
     _static_urls := _static_urls self |}.

(** The loop of [instance()] over [config.items()]: the exception that
    stops it, if any, and the instance as the loop leaves it. *)
Fixpoint register_configs (items : list (string * config_setting))
    (self : DjangoViteAssetLoader)
  : option tag_exception * DjangoViteAssetLoader :=
  match items with
  | [] => (None, self)
  | (config_key, ConfigObject config) :: items' =>
      register_configs items' (store_config config_key config self)
  | (config_key, ConfigDict values) :: items' =>
      match new_DjangoViteConfig values with
      | Return config =>
          register_configs items' (store_config config_key config self)
      | Raise e => (Some (Raised e), self)
      end
  | (config_key, ConfigOther) :: items' =>
      (Some (CannotReadConfiguration config_key), self)
  end.

(** The keyword arguments that the older settings make: there is no
    setting for [react_refresh_url]. *)
Definition legacy_config_values (settings : Settings) : config_values :=
  {| given_assets_path := DJANGO_VITE_ASSETS_PATH settings;
     given_dev_mode := DJANGO_VITE_DEV_MODE settings;
     given_dev_server_protocol := DJANGO_VITE_DEV_SERVER_PROTOCOL settings;
     given_dev_server_host := DJANGO_VITE_DEV_SERVER_HOST settings;
     given_dev_server_port := DJANGO_VITE_DEV_SERVER_PORT settings;
     given_ws_client_url := DJANGO_VITE_WS_CLIENT_URL settings;
     given_static_url_prefix := DJANGO_VITE_STATIC_URL_PREFIX settings;
     given_legacy_polyfills_motif :=
       DJANGO_VITE_LEGACY_POLYFILLS_MOTIF settings;
     given_manifest_path := DJANGO_VITE_MANIFEST_PATH settings;
     given_react_refresh_url := None;
     unexpected_keywords := [] |}.

(** The instance as [cls.__new__(cls)] and the three assignments make it. *)
Definition new_instance : DjangoViteAssetLoader :=
  {| _configs := ∅; _manifests := ∅; _static_urls := ∅ |}.

(** [instance()], on the class attribute [_instance]: what the call
    returns or raises, and the attribute after the call. The attribute is
    assigned before the settings are read, and the object it holds is the
    one that the loop fills. *)
Definition instance (settings : Settings)
    (_instance : option DjangoViteAssetLoader)
  : (tag_exception + DjangoViteAssetLoader) * option DjangoViteAssetLoader :=
  match _instance with
  | Some self => (inr self, Some self)
  | None =>
      match DJANGO_VITE settings with
      | Some config =>
          match register_configs config new_instance with
          | (None, self) => (inr self, Some self)
          | (Some e, self) => (inl e, Some self)
          end
      | None =>
          match new_DjangoViteConfig (legacy_config_values settings) with
          | Return config =>
              (inr (store_config DEFAULT_CONFIG_KEY config new_instance),
               Some (store_config DEFAULT_CONFIG_KEY config new_instance))
          | Raise e => (inl (Raised e), Some new_instance)
          end
      end
  end.

(** [DjangoViteAssetLoader.instance().method(...)]: the method works on
    the object that [_instance] holds. *)
Definition on_instance {A : Type} (settings : Settings) (method : M A)
    (_instance : option DjangoViteAssetLoader)
  : (tag_exception + A) * option DjangoViteAssetLoader :=
  match instance settings _instance with
  | (inl e, _instance') => (inl e, _instance')
  | (inr self, _) =>
      match method self with
      | (Return a, self') => (inr a, Some self')
      | (Raise e, self') => (inl (Raised e), Some self')
      end
  end.

(** The template tags. [mark_safe] leaves the text as it is. *)
Definition vite_asset (env : Environment) (settings : Settings)
    (path config_key : string) (kwargs : dict string) :=
  on_instance settings (generate_vite_asset env path config_key kwargs).

Definition vite_preload_asset (env : Environment) (settings : Settings)
    (path config_key : string) :=
  on_instance settings (preload_vite_asset env path config_key).

Definition vite_asset_url (env : Environment) (settings : Settings)
    (path config_key : string) :=
  on_instance settings (generate_vite_asset_url env path config_key).

Definition vite_legacy_polyfills (env : Environment) (settings : Settings)
    (config_key : string) (kwargs : dict string) :=
  on_instance settings (generate_vite_legacy_polyfills env config_key kwargs).

Definition vite_legacy_asset (env : Environment) (settings : Settings)
    (path config_key : string) (kwargs : dict string) :=
  on_instance settings (generate_vite_legacy_asset env path config_key kwargs).

(** The environment with another file system. *)
Definition with_manifest_file (env : Environment)
    (read : string -> manifest_file) : Environment :=
  {| STATIC_URL := STATIC_URL env;
     STATIC_ROOT := STATIC_ROOT env;
     urljoin := urljoin env;
     path_join := path_join env;
     staticfiles_storage_url := staticfiles_storage_url env;
     read_manifest_file := read;
     recursion_limit := recursion_limit env |}.

(** The configuration that a value of [DJANGO_VITE] stands for. *)
Definition read_config_setting (setting : config_setting)
  : option DjangoViteConfig :=
  match setting with
  | ConfigObject config => Some config
  | ConfigDict values =>
      match new_DjangoViteConfig values with
      | Return config => Some config
      | Raise _ => None
      end
  | ConfigOther => None
  end.

(** ** Concrete settings *)

Module Site.

Definition admin_values : config_values :=
  {| given_assets_path := Some (IsStr "/srv/admin");
     given_dev_mode := Some true;
     given_dev_server_protocol := None;
     given_dev_server_host := None;
     given_dev_server_port := Some 5173%Z;
     given_ws_client_url := None;
     given_static_url_prefix := None;
     given_legacy_polyfills_motif := None;
     given_manifest_path := None;
     given_react_refresh_url := None;
     unexpected_keywords := [] |}.

(** The configuration that [admin_values] make: development, with a
    string for the assets and no path for the manifest. *)
Definition admin_config : DjangoViteConfig :=
  {| assets_path := IsStr "/srv/admin";
     dev_mode := true;
     dev_server_protocol := "http";
     dev_server_host := "localhost";
     dev_server_port := 5173;
     ws_client_url := "@vite/client";
     static_url_prefix := EmptyString;
     legacy_polyfills_motif := "legacy-polyfills";
     manifest_path := IsStr EmptyString;
     react_refresh_url := "@react-refresh" |}.

(** Two configurations, one as an object and one as a dictionary. *)
Definition settings : Settings :=
  {| DJANGO_VITE :=
       Some [("default", ConfigObject (Example.config false));
             ("admin", ConfigDict admin_values)];
     DJANGO_VITE_DEV_MODE := None;
     DJANGO_VITE_DEV_SERVER_PROTOCOL := None;
     DJANGO_VITE_DEV_SERVER_HOST := None;
     DJANGO_VITE_DEV_SERVER_PORT := None;
     DJANGO_VITE_WS_CLIENT_URL := None;
     DJANGO_VITE_ASSETS_PATH := None;
     DJANGO_VITE_STATIC_URL_PREFIX := None;
     DJANGO_VITE_MANIFEST_PATH := None;
     DJANGO_VITE_LEGACY_POLYFILLS_MOTIF := None |}.

(** The second of three values is neither a configuration nor a
    dictionary. *)
Definition broken_settings : Settings :=
  {| DJANGO_VITE :=
       Some [("default", ConfigObject (Example.config false));
             ("admin", ConfigOther);
             ("shop", ConfigDict admin_values)];
     DJANGO_VITE_DEV_MODE := None;
     DJANGO_VITE_DEV_SERVER_PROTOCOL := None;
     DJANGO_VITE_DEV_SERVER_HOST := None;
     DJANGO_VITE_DEV_SERVER_PORT := None;
     DJANGO_VITE_WS_CLIENT_URL := None;
     DJANGO_VITE_ASSETS_PATH := None;
     DJANGO_VITE_STATIC_URL_PREFIX := None;
     DJANGO_VITE_MANIFEST_PATH := None;
     DJANGO_VITE_LEGACY_POLYFILLS_MOTIF := None |}.

(** The settings of the older releases. *)
Definition legacy_settings : Settings :=
  {| DJANGO_VITE := None;
     DJANGO_VITE_DEV_MODE := Some false;
     DJANGO_VITE_DEV_SERVER_PROTOCOL := None;
     DJANGO_VITE_DEV_SERVER_HOST := None;
     DJANGO_VITE_DEV_SERVER_PORT := None;
     DJANGO_VITE_WS_CLIENT_URL := None;
     DJANGO_VITE_ASSETS_PATH := Some (IsPath "/srv/assets");
     DJANGO_VITE_STATIC_URL_PREFIX := Some "static";
     DJANGO_VITE_MANIFEST_PATH := None;
     DJANGO_VITE_LEGACY_POLYFILLS_MOTIF := None |}.

End Site.

(** * Properties *)
(** ** Dictionaries *)

Section DictFacts.
Context {V : Type}.
Implicit Types (d : dict V) (k : string) (v : V).

Lemma dict_get_In k d v : dict_get k d = Some v -> In (k, v) d.
Proof.
  induction d as [|[k' v'] d IH]; simpl; [discriminate|].
  destruct (String.eqb_spec k k') as [->|Hne].
  - intros [= ->]. now left.
  - intros H. right. auto.
Qed.

Lemma dict_get_None k d : dict_get k d = None <-> ~ In k (dict_keys d).
Proof.
  induction d as [|[k' v'] d IH]; simpl; [tauto|].
  destruct (String.eqb_spec k k') as [->|Hne].
  - split; [discriminate|]. intros H. exfalso. apply H. now left.
  - rewrite IH. unfold dict_keys. split.
    + intros H [Heq|Hin]; [congruence|tauto].
    + intros H Hin. apply H. now right.
Qed.

Lemma dict_mem_keys k d : dict_mem k d = true <-> In k (dict_keys d).
Proof.
  unfold dict_mem. destruct (dict_get k d) eqn:E.
  - split; [|reflexivity]. intros _.
    apply dict_get_In in E. unfold dict_keys.
    change k with (fst (k, v)). now apply in_map.
  - apply dict_get_None in E. split; [discriminate|tauto].
Qed.

Lemma dict_get_unique k d v :
  List.NoDup (dict_keys d) -> In (k, v) d -> dict_get k d = Some v.
Proof.
  induction d as [|[k' v'] d IH]; simpl; [tauto|].
  intros Hnd [Heq|Hin].
  - injection Heq as -> ->. now rewrite String.eqb_refl.
  - apply List.NoDup_cons_iff in Hnd as [Hk Hnd].
    destruct (String.eqb_spec k k') as [->|Hne]; [|auto].
    exfalso. apply Hk. unfold dict_keys.
    change k' with (fst (k', v)). now apply in_map.
Qed.

Lemma dict_get_set_eq k d v : dict_get k (dict_set d k v) = Some v.
Proof.
  induction d as [|[k' v'] d IH]; simpl.
  - now rewrite String.eqb_refl.
  - destruct (String.eqb_spec k k') as [->|Hne]; simpl.
    + now rewrite String.eqb_refl.
    + destruct (String.eqb_spec k k'); [contradiction|exact IH].
Qed.

Lemma dict_get_set_ne k k' d v :
  k <> k' -> dict_get k (dict_set d k' v) = dict_get k d.
Proof.
  intros Hne. induction d as [|[k0 v0] d IH]; simpl.
  - destruct (String.eqb_spec k k'); [contradiction|reflexivity].
  - destruct (String.eqb_spec k' k0) as [->|Hne0]; simpl.
    + destruct (String.eqb_spec k k0); [contradiction|reflexivity].
    + destruct (String.eqb_spec k k0); [reflexivity|exact IH].
Qed.

Lemma dict_keys_set k d v :
  dict_keys (dict_set d k v) =
  if dict_mem k d then dict_keys d else dict_keys d ++ [k].
Proof.
  unfold dict_mem. induction d as [|[k' v'] d IH]; simpl; [reflexivity|].
  destruct (String.eqb_spec k k') as [->|Hne]; simpl; [reflexivity|].
  rewrite IH. now destruct (dict_get k d).
Qed.

Lemma dict_set_NoDup k d v :
  List.NoDup (dict_keys d) -> List.NoDup (dict_keys (dict_set d k v)).
Proof.
  intros Hnd. rewrite dict_keys_set.
  destruct (dict_mem k d) eqn:E; [exact Hnd|].
  apply List.NoDup_app; [exact Hnd| |].
  - repeat constructor. intros [].
  - intros x Hx [<-|[]]. apply dict_mem_keys in Hx. congruence.
Qed.

Lemma dict_update_NoDup d other :
  List.NoDup (dict_keys d) -> List.NoDup (dict_keys (dict_update d other)).
Proof.
  unfold dict_update. revert d.
  induction other as [|[k v] other IH]; simpl; intros d Hnd; [exact Hnd|].
  apply IH. now apply dict_set_NoDup.
Qed.

Lemma dict_get_update_other k d other :
  ~ In k (dict_keys other) ->
  dict_get k (dict_update d other) = dict_get k d.
Proof.
  unfold dict_update. revert d.
  induction other as [|[k' v'] other IH]; simpl; intros d Hk; [reflexivity|].
  rewrite IH by tauto. apply dict_get_set_ne. intros ->. tauto.
Qed.

(** [**other] wins over what [d] holds for the same key. *)
Lemma dict_get_update k d other v :
  List.NoDup (dict_keys other) -> dict_get k other = Some v ->
  dict_get k (dict_update d other) = Some v.
Proof.
  unfold dict_update. revert d.
  induction other as [|[k' v'] other IH]; simpl; intros d Hnd Hget;
    [discriminate|].
  apply List.NoDup_cons_iff in Hnd as [Hk' Hnd].
  destruct (String.eqb_spec k k') as [->|Hne].
  - injection Hget as ->.
    change (dict_get k' (dict_update (dict_set d k' v) other) = Some v).
    rewrite dict_get_update_other by exact Hk'. apply dict_get_set_eq.
  - now apply IH.
Qed.

End DictFacts.

(** ** The monad and the two caches *)

Lemma bind_Return {A B : Type} (c : M A) (k : A -> M B) self a self' :
  c self = (Return a, self') -> bind c k self = k a self'.
Proof. unfold bind. now intros ->. Qed.

Lemma bind_Raise {A B : Type} (c : M A) (k : A -> M B) self e self' :
  c self = (Raise e, self') -> bind c k self = (Raise e, self').
Proof. unfold bind. now intros ->. Qed.

Section LoaderFacts.
Variable env : Environment.

Lemma _get_config_eq self config_key config :
  _configs self !! config_key = Some config ->
  _get_config config_key self = (Return config, self).
Proof. unfold _get_config. now intros ->. Qed.

Lemma _get_config_None self config_key :
  _configs self !! config_key = None ->
  _get_config config_key self =
  (Raise (RuntimeError (CannotFindConfiguration config_key)), self).
Proof. unfold _get_config. now intros ->. Qed.

Lemma _get_manifest_cached self config_key manifest :
  _manifests self !! config_key = Some manifest ->
  _get_manifest env config_key self = (Return manifest, self).
Proof. unfold _get_manifest. now intros ->. Qed.

(** [_parse_manifest] with a configuration: the path is computed, and
    the file at the path is read. *)
Lemma _parse_manifest_eq self config_key config :
  _configs self !! config_key = Some config ->
  _parse_manifest env config_key self =
  (match get_computed_manifest_path env config with
   | inl message => Raise (TypeError message)
   | inr manifest_path =>
       match read_manifest_file env (fspath manifest_path) with
       | Document members => Return (dict_update [] members)
       | Unreadable error =>
           Raise (RuntimeError
                    (CannotReadManifest (fspath manifest_path) error))
       end
   end, self).
Proof.
  intros Hc. unfold _parse_manifest.
  rewrite (bind_Return _ _ _ _ _ (_get_config_eq _ _ _ Hc)).
  destruct (get_computed_manifest_path env config) as [message|manifest_path];
    [reflexivity|].
  destruct (read_manifest_file env (fspath manifest_path)); reflexivity.
Qed.

(** In production the path of the manifest is computed without fail. *)
Lemma get_computed_manifest_path_production config :
  dev_mode config = false ->
  exists manifest_path,
    get_computed_manifest_path env config = inr manifest_path.
Proof.
  intros Hdev. unfold get_computed_manifest_path, static_root.
  rewrite Hdev. destruct (path_truthy (manifest_path config)); cbn; eauto.
Qed.

(** A manifest that has been returned is in the cache, and the
    configurations are as before. *)
Lemma _get_manifest_Return self config_key manifest self' :
  _get_manifest env config_key self = (Return manifest, self') ->
  _manifests self' !! config_key = Some manifest /\
  _configs self' = _configs self.
Proof.
  unfold _get_manifest.
  destruct (_manifests self !! config_key) as [m|] eqn:Hm.
  - intros [= -> ->]. auto.
  - destruct (_configs self !! config_key) as [config|] eqn:Hc.
    + unfold bind at 1. rewrite (_parse_manifest_eq _ _ _ Hc).
      destruct (get_computed_manifest_path env config); [discriminate|].
      destruct (read_manifest_file env _); [discriminate|].
      unfold bind, ret, store_manifest. intros [= <- <-]. simpl.
      split; [apply lookup_insert_eq|reflexivity].
    + unfold bind at 1, _parse_manifest.
      now rewrite (bind_Raise _ _ _ _ _ (_get_config_None _ _ Hc)).
Qed.

(** What [_get_manifest] raises, it raises for want of a configuration,
    of a path or of a readable file, and it leaves the loader as it
    was. *)
Lemma _get_manifest_Raise self config_key e self' :
  _get_manifest env config_key self = (Raise e, self') ->
  self' = self /\
  (e = RuntimeError (CannotFindConfiguration config_key) \/
   (exists manifest_path error,
      e = RuntimeError (CannotReadManifest manifest_path error)) \/
   exists message, e = TypeError message).
Proof.
  unfold _get_manifest.
  destruct (_manifests self !! config_key) as [m|] eqn:Hm; [discriminate|].
  destruct (_configs self !! config_key) as [config|] eqn:Hc.
  - unfold bind at 1. rewrite (_parse_manifest_eq _ _ _ Hc).
    destruct (get_computed_manifest_path env config).
    + intros [= <- <-]. eauto.
    + destruct (read_manifest_file env _); [|discriminate].
      intros [= <- <-]. eauto 6.
  - unfold bind at 1, _parse_manifest.
    rewrite (bind_Raise _ _ _ _ _ (_get_config_None _ _ Hc)).
    intros [= <- <-]. auto.
Qed.

Lemma loaded_after self config_key config manifest self' :
  _configs self !! config_key = Some config ->
  _get_manifest env config_key self = (Return manifest, self') ->
  loaded self' config_key config manifest.
Proof.
  intros Hc Hm. apply _get_manifest_Return in Hm as [Hm Heq].
  split; [now rewrite Heq|exact Hm].
Qed.

(** *** The walk and its trace *)

Lemma css_loop_app {T : Type} (emit : string -> T) css tags ap :
  css_loop emit css tags ap =
  (tags ++ fst (css_loop emit css [] ap), snd (css_loop emit css [] ap)).
Proof.
  unfold css_loop.
  enough (H : forall pre tags,
    fold_left
      (fun acc css_path =>
         ((if Str.mem css_path (snd acc) then fst acc
           else fst acc ++ [emit css_path]), snd acc ++ [css_path]))
      css (pre ++ tags, ap) =
    (pre ++ fst (fold_left
      (fun acc css_path =>
         ((if Str.mem css_path (snd acc) then fst acc
           else fst acc ++ [emit css_path]), snd acc ++ [css_path]))
      css (tags, ap)),
     snd (fold_left
      (fun acc css_path =>
         ((if Str.mem css_path (snd acc) then fst acc
           else fst acc ++ [emit css_path]), snd acc ++ [css_path]))
      css (tags, ap)))).
  { specialize (H tags []). now rewrite app_nil_r in H. }
  revert ap. induction css as [|c css IH]; intros ap pre tags0; simpl.
  - reflexivity.
  - destruct (Str.mem c ap).
    + apply IH.
    + rewrite <- app_assoc. apply IH.
Qed.

Lemma css_loop_map {T U : Type} (g : T -> U) (emit : string -> T)
    css tags ap :
  css_loop (fun c => g (emit c)) css (map g tags) ap =
  (map g (fst (css_loop emit css tags ap)),
   snd (css_loop emit css tags ap)).
Proof.
  unfold css_loop. revert tags ap.
  induction css as [|c css IH]; intros tags ap; simpl; [reflexivity|].
  destruct (Str.mem c ap).
  - apply IH.
  - change [g (emit c)] with (map g [emit c]). rewrite <- map_app. apply IH.
Qed.

(** On a loader that holds the manifest, the walk returns the tags of
    its trace, raises what the trace raises, and leaves the loader as
    it is. *)
Lemma walk_emissions self config_key config manifest tag_generator :
  loaded self config_key config manifest ->
  forall depth path already_processed,
    _generate_css_files_of_asset env depth path already_processed
      tag_generator config_key self =
    (result_map
       (fun r => (map (emission_tag env config tag_generator) (fst r), snd r))
       (css_emissions depth manifest path already_processed),
     self).
Proof.
  intros [Hc Hm]. induction depth as [|depth IH]; intros path ap.
  - reflexivity.
  - cbn [_generate_css_files_of_asset css_emissions].
    rewrite (bind_Return _ _ _ _ _ (_get_config_eq _ _ _ Hc)).
    rewrite (bind_Return _ _ _ _ _ (_get_manifest_cached _ _ _ Hm)).
    unfold getitem. destruct (dict_get path manifest) as [entry|];
      [|reflexivity].
    rewrite (bind_Return _ _ self entry self) by reflexivity.
    set (body := fun acc import_path => _).
    assert (Hloop : forall l tr ap0,
      for_each l (map (emission_tag env config tag_generator) tr, ap0)
        body self =
      (result_map
         (fun r => (map (emission_tag env config tag_generator) (fst r),
                    snd r))
         (fold_imports (css_emissions depth manifest) l (tr, ap0)), self)).
    { induction l as [|i l IHl]; intros tr ap0; [reflexivity|].
      cbn [for_each fold_imports]. unfold bind at 1. unfold body at 1.
      unfold bind at 1. cbn [snd fst]. rewrite IH.
      destruct (css_emissions depth manifest i ap0) as [sub|e];
        [|reflexivity].
      cbn [result_map ret snd fst]. rewrite <- map_app. apply IHl. }
    specialize (Hloop (imports entry) [] ap). cbn [map] in Hloop.
    unfold bind at 1. rewrite Hloop.
    destruct (fold_imports _ _ _) as [walked|e]; [|reflexivity].
    cbn [result_map ret fst snd]. unfold emission_tag at 1.
    now rewrite (css_loop_map
      (emission_tag env config tag_generator)
      (fun css_path => (path, css_path))).
Qed.

End LoaderFacts.

(** ** Lists *)

Lemma Str_mem_In x l : Str.mem x l = true <-> In x l.
Proof.
  unfold Str.mem. rewrite existsb_exists. split.
  - intros [y [Hy Heq]]. apply String.eqb_eq in Heq. now subst.
  - intros H. exists x. split; [exact H|apply String.eqb_refl].
Qed.

Lemma Str_mem_not_In x l : Str.mem x l = false <-> ~ In x l.
Proof.
  rewrite <- Str_mem_In. destruct (Str.mem x l); split; congruence.
Qed.

Section Precedes.
Context {A : Type}.
Implicit Types (x y : A) (l : list A).

Lemma precedes_app_l x y l l' : precedes x y l -> precedes x y (l ++ l').
Proof.
  intros (l1 & l2 & l3 & ->). exists l1, l2, (l3 ++ l').
  now repeat (rewrite <- app_assoc || rewrite <- app_comm_cons).
Qed.

Lemma precedes_app_r x y l l' : precedes x y l' -> precedes x y (l ++ l').
Proof.
  intros (l1 & l2 & l3 & ->). exists (l ++ l1), l2, l3.
  now rewrite <- app_assoc.
Qed.

Lemma precedes_app x y l l' : In x l -> In y l' -> precedes x y (l ++ l').
Proof.
  intros Hx Hy.
  apply in_split in Hx as (a & b & ->).
  apply in_split in Hy as (a' & b' & ->).
  exists a, (b ++ a'), b'.
  now repeat (rewrite <- app_assoc || rewrite <- app_comm_cons).
Qed.

End Precedes.

(** ** The loop over the CSS paths of one entry *)

Lemma css_loop_cons {T : Type} (emit : string -> T) c css tags ap :
  css_loop emit (c :: css) tags ap =
  css_loop emit css (if Str.mem c ap then tags else tags ++ [emit c])
    (ap ++ [c]).
Proof. reflexivity. Qed.

Lemma css_loop_own (p : string) css ap :
  snd (css_loop (pair p) css [] ap) = ap ++ css /\
  (forall n c, In (n, c) (fst (css_loop (pair p) css [] ap)) ->
     n = p /\ In c css /\ ~ In c ap) /\
  List.NoDup (map snd (fst (css_loop (pair p) css [] ap))) /\
  (forall c, In c css ->
     In c ap \/ In c (map snd (fst (css_loop (pair p) css [] ap)))).
Proof.
  revert ap. induction css as [|c0 css IH]; intros ap.
  - cbn. rewrite app_nil_r. repeat split; try tauto. constructor.
  - rewrite css_loop_cons, css_loop_app. cbn [fst snd].
    destruct (IH (ap ++ [c0])) as (Hsnd & Hin & Hnd & Hcov).
    split; [|split; [|split]].
    + rewrite Hsnd, <- app_assoc. reflexivity.
    + intros n c [Hhd|Htl]%in_app_or.
      * destruct (Str.mem c0 ap) eqn:Hmem; [destruct Hhd|].
        destruct Hhd as [[= <- <-]|[]].
        apply Str_mem_not_In in Hmem. repeat split; [now left|exact Hmem].
      * apply Hin in Htl as (-> & Hc & Hap). repeat split; [now right|].
        intros H. apply Hap, in_or_app. now left.
    + rewrite map_app. apply List.NoDup_app; [|exact Hnd|].
      * destruct (Str.mem c0 ap); repeat constructor. intros [].
      * intros c Hc Hc'. apply in_map_iff in Hc' as ([n c'] & Heq & Hc').
        simpl in Heq. subst c'. apply Hin in Hc' as (_ & _ & Hap).
        destruct (Str.mem c0 ap); [destruct Hc|].
        destruct Hc as [<-|[]]. apply Hap, in_or_app. right. now left.
    + intros c [<-|Hc].
      * destruct (Str.mem c0 ap) eqn:Hmem.
        -- left. now apply Str_mem_In.
        -- right. rewrite map_app. apply in_or_app. left. now left.
      * destruct (Hcov c Hc) as [[Hap|[<-|[]]]%in_app_or|Hem].
        -- now left.
        -- destruct (Str.mem c0 ap) eqn:Hmem.
           ++ left. now apply Str_mem_In.
           ++ right. rewrite map_app. apply in_or_app. left. now left.
        -- right. rewrite map_app. apply in_or_app. now right.
Qed.

(** ** What a walk that returns has done *)

Section Trace.
Variable manifest : Manifest.

Lemma walk_inv_nil ap : walk_inv manifest [] ap [] ap.
Proof.
  repeat split; try (intros; simpl in *; tauto).
  - apply incl_refl.
  - constructor.
Qed.

(** Two walks in a row. *)
Lemma walk_inv_seq roots1 roots2 ap0 t1 ap1 t2 ap2 :
  walk_inv manifest roots1 ap0 t1 ap1 ->
  walk_inv manifest roots2 ap1 t2 ap2 ->
  walk_inv manifest (roots1 ++ roots2) ap0 (t1 ++ t2) ap2.
Proof.
  intros (Hi1 & Hem1 & Hpr1 & Hall1 & Hnd1 & Hord1)
         (Hi2 & Hem2 & Hpr2 & Hall2 & Hnd2 & Hord2).
  split; [|split; [|split; [|split; [|split]]]].
  - eapply incl_tran; eauto.
  - intros n c [H|H]%in_app_or.
    + destruct (Hem1 n c H) as ((r & Hr & Hreach) & Hcss & Hap & Hin).
      repeat split; auto. exists r. split; [apply in_or_app|]; auto.
    + destruct (Hem2 n c H) as ((r & Hr & Hreach) & Hcss & Hap & Hin).
      repeat split; auto. exists r. split; [apply in_or_app|]; auto.
  - intros c Hc. rewrite map_app.
    destruct (Hpr2 c Hc) as [Hc1|Hc2].
    + destruct (Hpr1 c Hc1) as [?|?]; [now left|].
      right. apply in_or_app. now left.
    + right. apply in_or_app. now right.
  - intros r n c [Hr|Hr]%in_app_or Hreach Hcss; eauto.
  - rewrite map_app. apply List.NoDup_app; auto.
    intros c Hc1 Hc2.
    apply in_map_iff in Hc1 as ([n1 c1] & Heq1 & Hc1).
    apply in_map_iff in Hc2 as ([n2 c2] & Heq2 & Hc2).
    simpl in *. subst c1 c2.
    destruct (Hem1 n1 c Hc1) as (_ & _ & _ & Hin).
    destruct (Hem2 n2 c Hc2) as (_ & _ & Hap & _). tauto.
  - intros n c d c' [Hn|Hn]%in_app_or Htc Hcss.
    + destruct (Hord1 n c d c' Hn Htc Hcss) as [?|[e He]]; [now left|].
      right. exists e. now apply precedes_app_l.
    + destruct (Hord2 n c d c' Hn Htc Hcss) as [Hc'|[e He]].
      * destruct (Hpr1 c' Hc') as [?|Hc1]; [now left|]. right.
        apply in_map_iff in Hc1 as ([e c1] & Heq & Hc1). simpl in Heq.
        subst c1. exists e. now apply precedes_app.
      * right. exists e. now apply precedes_app_r.
Qed.

(** The loop over the imports, when each walk it starts is as above. *)
Lemma fold_imports_inv walk l :
  (forall i ap tr ap', In i l -> walk i ap = Return (tr, ap') ->
     walk_inv manifest [i] ap tr ap') ->
  forall tr0 ap0 tr ap',
    fold_imports walk l (tr0, ap0) = Return (tr, ap') ->
    exists trl, tr = tr0 ++ trl /\ walk_inv manifest l ap0 trl ap'.
Proof.
  induction l as [|i l IH]; intros Hwalk tr0 ap0 tr ap'.
  - intros [= <- <-]. exists []. rewrite app_nil_r.
    split; [reflexivity|apply walk_inv_nil].
  - cbn [fold_imports snd fst].
    destruct (walk i ap0) as [[t1 ap1]|e] eqn:Hi; [|discriminate].
    intros Hrest. cbn [fst snd] in Hrest.
    apply IH in Hrest as (trl & -> & Hinv).
    + exists (t1 ++ trl). split; [now rewrite app_assoc|].
      change (i :: l) with ([i] ++ l).
      eapply walk_inv_seq; [|exact Hinv].
      apply Hwalk; [now left|exact Hi].
    + intros j ap tr1 ap2 Hj. apply Hwalk. now right.
Qed.

(** The walk of one entry: its imports, then its own CSS paths. *)
Lemma walk_inv_node p entry ap trI ap1 :
  dict_get p manifest = Some entry ->
  walk_inv manifest (imports entry) ap trI ap1 ->
  walk_inv manifest [p] ap
    (fst (css_loop (pair p) (css entry) trI ap1))
    (snd (css_loop (pair p) (css entry) trI ap1)).
Proof.
  intros Hp (Hi & Hem & Hpr & Hall & Hnd & Hord).
  rewrite css_loop_app. cbn [fst snd].
  destruct (css_loop_own p (css entry) ap1) as (Hsnd & Hown & Hnd' & Hcov).
  rewrite Hsnd.
  assert (Hstep : forall r n, In r (imports entry) ->
                              rtc (imports_edge manifest) r n ->
                              tc (imports_edge manifest) p n).
  { intros r n Hr Hreach. eapply tc_rtc_r; [|exact Hreach].
    apply tc_once. exists entry. auto. }
  split; [|split; [|split; [|split; [|split]]]].
  - intros c Hc. apply in_or_app. left. auto.
  - intros n c [H|H]%in_app_or.
    + destruct (Hem n c H) as ((r & Hr & Hreach) & Hcss & Hap & Hin).
      repeat split; auto.
      * exists p. split; [now left|]. apply tc_rtc. eauto.
      * apply in_or_app. now left.
    + destruct (Hown n c H) as (-> & Hc & Hap). repeat split.
      * exists p. split; [now left|apply rtc_refl].
      * exists entry. auto.
      * intros Hc'. apply Hap. auto.
      * apply in_or_app. now right.
  - intros c [Hc|Hc]%in_app_or; rewrite map_app.
    + destruct (Hpr c Hc) as [?|?]; [now left|].
      right. apply in_or_app. now left.
    + destruct (Hcov c Hc) as [Hc1|Hc2].
      * destruct (Hpr c Hc1) as [?|?]; [now left|].
        right. apply in_or_app. now left.
      * right. apply in_or_app. now right.
  - intros r n c [<-|[]] Hreach (e' & He' & Hc).
    apply rtc_inv in Hreach as [<-|(i & (e'' & He'' & Hi') & Hreach)].
    + rewrite Hp in He'. injection He' as <-. apply in_or_app. now right.
    + rewrite Hp in He''. injection He'' as <-. apply in_or_app. left.
      apply (Hall i n c Hi' Hreach). exists e'. auto.
  - rewrite map_app. apply List.NoDup_app; auto.
    intros c Hc1 Hc2.
    apply in_map_iff in Hc1 as ([n1 c1] & Heq1 & Hc1).
    apply in_map_iff in Hc2 as ([n2 c2] & Heq2 & Hc2).
    simpl in *. subst c1 c2.
    destruct (Hem n1 c Hc1) as (_ & _ & _ & Hin).
    destruct (Hown n2 c Hc2) as (_ & _ & Hap). tauto.
  - intros n c d c' [Hn|Hn]%in_app_or Htc Hcss.
    + destruct (Hord n c d c' Hn Htc Hcss) as [?|[e He]]; [now left|].
      right. exists e. now apply precedes_app_l.
    + destruct (Hown n c Hn) as (-> & _).
      assert (Hc' : In c' ap1).
      { destruct Htc as [p d (e' & He' & Hd)|p i d (e' & He' & Hi') Htc];
          rewrite Hp in He'; injection He' as <-.
        - apply (Hall d d c' Hd); [apply rtc_refl|exact Hcss].
        - apply (Hall i d c' Hi'); [now apply tc_rtc|exact Hcss]. }
      destruct (Hpr c' Hc') as [?|Hc1]; [now left|]. right.
      apply in_map_iff in Hc1 as ([e c1] & Heq & Hc1). simpl in Heq.
      subst c1. exists e. now apply precedes_app.
Qed.

(** Every walk that returns. *)
Lemma css_emissions_inv depth :
  forall p ap tr ap',
    css_emissions depth manifest p ap = Return (tr, ap') ->
    walk_inv manifest [p] ap tr ap'.
Proof.
  induction depth as [|depth IH]; intros p ap tr ap'; [discriminate|].
  cbn [css_emissions].
  destruct (dict_get p manifest) as [entry|] eqn:Hp; [|discriminate].
  destruct (fold_imports _ _ _) as [[trI ap1]|e] eqn:Hfold; [|discriminate].
  intros [= Heq]. cbn [fst snd] in Heq.
  rewrite (surjective_pairing (css_loop _ _ _ _)) in Heq.
  injection Heq as <- <-.
  apply fold_imports_inv in Hfold as (trl & -> & Hinv).
  - apply walk_inv_node; auto.
  - intros i ap0 tr0 ap0' _. apply IH.
Qed.

End Trace.

(** ** When the walk returns *)

Section Termination.
Variable manifest : Manifest.

Lemma fold_imports_Return {T : Type}
    (walk : string -> list string -> result (list T * list string)) l :
  (forall i ap, In i l -> exists r, walk i ap = Return r) ->
  forall acc, exists r, fold_imports walk l acc = Return r.
Proof.
  induction l as [|i l IH]; intros Hwalk acc; cbn [fold_imports]; [eauto|].
  destruct (Hwalk i (snd acc)) as [r ->]; [now left|].
  apply IH. intros j ap Hj. apply Hwalk. now right.
Qed.

Lemma fold_imports_each {T : Type}
    (walk : string -> list string -> result (list T * list string)) l :
  forall acc r, fold_imports walk l acc = Return r ->
  forall i, In i l -> exists ap ri, walk i ap = Return ri.
Proof.
  induction l as [|i l IH]; intros acc r Hfold j Hj; [destruct Hj|].
  cbn [fold_imports] in Hfold.
  destruct (walk i (snd acc)) as [sub|e] eqn:Hi; [|discriminate].
  destruct Hj as [<-|Hj]; eauto.
Qed.

Lemma import_chain_shorter p k :
  import_chain manifest p (S k) -> import_chain manifest p k.
Proof.
  revert p. induction k as [|k IH]; intros p H; [constructor|].
  inversion H as [|? i ? Hedge Hchain]; subst.
  eapply chain_next; eauto.
Qed.

Lemma import_chain_rtc a b k :
  rtc (imports_edge manifest) a b -> import_chain manifest b k ->
  import_chain manifest a k.
Proof.
  induction 1 as [|a i b Hedge _ IH]; intros Hchain; [exact Hchain|].
  apply import_chain_shorter. eapply chain_next; eauto.
Qed.

(** An entry on a cycle starts chains of every length. *)
Lemma import_chain_cycle n k :
  tc (imports_edge manifest) n n -> import_chain manifest n k.
Proof.
  intros Hcyc. induction k as [|k IH]; [constructor|].
  assert (Hstep : exists i, imports_edge manifest n i /\
                            rtc (imports_edge manifest) i n).
  { inversion Hcyc as [? ? Hedge|? i ? Hedge Htc]; subst.
    - exists n. split; [exact Hedge|apply rtc_refl].
    - exists i. split; [exact Hedge|now apply tc_rtc]. }
  destruct Hstep as (i & Hedge & Hback).
  eapply chain_next; [exact Hedge|]. eapply import_chain_rtc; eauto.
Qed.

(** A walk that returns has been deeper than every chain of imports. *)
Lemma css_emissions_Return_chain depth :
  forall p ap r, css_emissions depth manifest p ap = Return r ->
  forall k, import_chain manifest p k -> k < depth.
Proof.
  induction depth as [|depth IH]; intros p ap r Hret k Hchain;
    [discriminate|].
  destruct Hchain as [p|p i k (entry & Hp & Hi) Hchain]; [lia|].
  cbn [css_emissions] in Hret. rewrite Hp in Hret.
  destruct (fold_imports _ _ _) as [walked|e] eqn:Hfold; [|discriminate].
  destruct (fold_imports_each _ _ _ _ Hfold i Hi) as (ap' & ri & Hsub).
  specialize (IH _ _ _ Hsub _ Hchain). lia.
Qed.

(** The walk returns only when no cycle can be reached. *)
Lemma css_emissions_Return_acyclic depth p ap r :
  css_emissions depth manifest p ap = Return r -> acyclic_from manifest p.
Proof.
  intros Hret n Hreach Hcyc.
  assert (Hchain : import_chain manifest p depth).
  { eapply import_chain_rtc; [exact Hreach|].
    now apply import_chain_cycle. }
  apply (css_emissions_Return_chain _ _ _ _ Hret) in Hchain. lia.
Qed.

(** What the walk raises on a loaded manifest. *)
Lemma css_emissions_Raise depth :
  forall p ap e, css_emissions depth manifest p ap = Raise e ->
  e = RecursionError \/
  exists k, e = KeyError k /\ dict_mem k manifest = false.
Proof.
  induction depth as [|depth IH]; intros p ap e.
  - intros [= <-]. now left.
  - cbn [css_emissions].
    destruct (dict_get p manifest) as [entry|] eqn:Hp.
    + destruct (fold_imports _ _ _) as [walked|e'] eqn:Hfold;
        [discriminate|].
      intros [= <-]. revert Hfold. generalize ([] : list (string * string)).
      generalize ap. induction (imports entry) as [|i l IHl];
        intros ap0 tr0; cbn [fold_imports snd fst]; [discriminate|].
      destruct (css_emissions depth manifest i ap0) as [sub|e] eqn:Hi.
      * apply IHl.
      * intros [= <-]. eapply IH; eauto.
    + intros [= <-]. right. exists p. split; [reflexivity|].
      unfold dict_mem. now rewrite Hp.
Qed.

(** With every import a key and no cycle ahead, the walk returns when
    the depth that is left covers the entries that are not among the
    callers [anc]. *)
Lemma css_emissions_returns entry :
  (forall n i, rtc (imports_edge manifest) entry n ->
     imports_edge manifest n i -> dict_mem i manifest = true) ->
  acyclic_from manifest entry ->
  forall depth p ap anc,
    rtc (imports_edge manifest) entry p -> dict_mem p manifest = true ->
    List.NoDup anc ->
    (forall a, In a anc ->
       In a (dict_keys manifest) /\ tc (imports_edge manifest) a p) ->
    length manifest <= depth + length anc ->
    exists r, css_emissions depth manifest p ap = Return r.
Proof.
  intros Hclosed Hacyc.
  induction depth as [|depth IH]; intros p ap anc Hreach Hp Hnd Hanc Hlen.
  - exfalso.
    assert (Hnd' : List.NoDup (p :: anc)).
    { constructor; [|exact Hnd]. intros Hin.
      apply (Hacyc p Hreach). now apply Hanc. }
    apply List.NoDup_incl_length with (l' := dict_keys manifest) in Hnd'.
    + unfold dict_keys in Hnd'. rewrite length_map in Hnd'. simpl in *. lia.
    + intros a [<-|Ha]; [now apply dict_mem_keys|now apply Hanc].
  - cbn [css_emissions]. unfold dict_mem in Hp.
    destruct (dict_get p manifest) as [e|] eqn:Hget; [|discriminate].
    destruct (fold_imports_Return (css_emissions depth manifest) (imports e))
      with (acc := ([] : list (string * string), ap)) as [r ->]; [|eauto].
    intros i ap0 Hi.
    assert (Hedge : imports_edge manifest p i) by (exists e; auto).
    apply IH with (anc := p :: anc).
    + eapply rtc_r; eauto.
    + eapply Hclosed; eauto.
    + constructor; [|exact Hnd]. intros Hin.
      apply (Hacyc p Hreach). now apply Hanc.
    + intros a [<-|Ha].
      * split; [|now apply tc_once].
        apply dict_mem_keys. unfold dict_mem. now rewrite Hget.
      * destruct (Hanc a Ha) as [Hk Htc]. split; [exact Hk|].
        eapply tc_r; eauto.
    + simpl. lia.
Qed.

(** Where a loop over imports that raises has raised. *)
Lemma fold_imports_Raise {T : Type}
    (walk : string -> list string -> result (list T * list string)) l :
  forall acc e, fold_imports walk l acc = Raise e ->
  exists i ap, In i l /\ walk i ap = Raise e.
Proof.
  induction l as [|i l IH]; intros acc e; cbn [fold_imports]; [discriminate|].
  destruct (walk i (snd acc)) as [sub|e'] eqn:Hi.
  - intros Hfold. destruct (IH _ _ Hfold) as (j & ap & Hj & Hraise).
    exists j, ap. split; [now right|exact Hraise].
  - intros [= <-]. exists i, (snd acc). split; [now left|exact Hi].
Qed.

(** A walk that raises [RecursionError] has gone down a chain of imports
    as long as the depth that was left; a walk that raises [KeyError] has
    reached a path that is no key. *)
Lemma css_emissions_Raise_reach depth :
  forall p ap e, css_emissions depth manifest p ap = Raise e ->
  (e = RecursionError /\ import_chain manifest p depth) \/
  exists k, e = KeyError k /\ dict_mem k manifest = false /\
            rtc (imports_edge manifest) p k.
Proof.
  induction depth as [|depth IH]; intros p ap e.
  - intros [= <-]. left. split; [reflexivity|constructor].
  - cbn [css_emissions].
    destruct (dict_get p manifest) as [entry|] eqn:Hp.
    + destruct (fold_imports _ _ _) as [walked|e'] eqn:Hfold;
        [discriminate|].
      intros [= <-].
      destruct (fold_imports_Raise _ _ _ _ Hfold) as (i & ap0 & Hi & Hraise).
      assert (Hedge : imports_edge manifest p i) by (exists entry; auto).
      destruct (IH _ _ _ Hraise) as [[-> Hchain]|(k & -> & Hk & Hreach)].
      * left. split; [reflexivity|]. eapply chain_next; eauto.
      * right. exists k. split; [reflexivity|split; [exact Hk|]].
        eapply rtc_l; eauto.
    + intros [= <-]. right. exists p. split; [reflexivity|].
      split; [|apply rtc_refl]. unfold dict_mem. now rewrite Hp.
Qed.

(** Without a cycle ahead, a chain of imports and the callers above it
    are entries that differ from one another. *)
Lemma import_chain_bound entry :
  acyclic_from manifest entry ->
  forall k p anc,
    rtc (imports_edge manifest) entry p ->
    import_chain manifest p k ->
    List.NoDup anc ->
    (forall a, In a anc ->
       In a (dict_keys manifest) /\ tc (imports_edge manifest) a p) ->
    k + length anc <= length manifest.
Proof.
  intros Hacyc. induction k as [|k IH]; intros p anc Hreach Hchain Hnd Hanc.
  - apply List.NoDup_incl_length with (l' := dict_keys manifest) in Hnd.
    + unfold dict_keys in Hnd. rewrite length_map in Hnd. simpl. lia.
    + intros a Ha. now apply Hanc.
  - inversion Hchain as [|? i ? Hedge Hchain']; subst.
    assert (Hkey : In p (dict_keys manifest)).
    { destruct Hedge as (e & Hp & _). apply dict_mem_keys.
      unfold dict_mem. now rewrite Hp. }
    specialize (IH i (p :: anc)). cbn [length] in IH.
    enough (k + S (length anc) <= length manifest) by lia.
    apply IH.
    + eapply rtc_r; eauto.
    + exact Hchain'.
    + constructor; [|exact Hnd]. intros Hin.
      apply (Hacyc p Hreach). now apply Hanc.
    + intros a [<-|Ha].
      * split; [exact Hkey|now apply tc_once].
      * destruct (Hanc a Ha) as [Hk Htc]. split; [exact Hk|].
        eapply tc_r; eauto.
Qed.

(** So a walk with more depth than there are entries raises
    [RecursionError] only with a cycle ahead. *)
Lemma css_emissions_RecursionError_cycle depth p ap :
  css_emissions depth manifest p ap = Raise RecursionError ->
  length manifest < depth -> ~ acyclic_from manifest p.
Proof.
  intros Hraise Hdepth Hacyc.
  destruct (css_emissions_Raise_reach _ _ _ _ Hraise)
    as [[_ Hchain]|(k & Hk & _)]; [|discriminate].
  pose proof (import_chain_bound p Hacyc depth p [] (rtc_refl _ _) Hchain
                (List.NoDup_nil _)) as Hbound.
  cbn [length] in Hbound. specialize (Hbound (fun a (H : In a []) =>
    match H with end)). lia.
Qed.

(** With a cycle ahead and every import ahead a key, the walk raises
    [RecursionError]. *)
Lemma css_emissions_cycle_RecursionError depth p ap :
  dict_mem p manifest = true ->
  (forall n i, rtc (imports_edge manifest) p n ->
     imports_edge manifest n i -> dict_mem i manifest = true) ->
  ~ acyclic_from manifest p ->
  css_emissions depth manifest p ap = Raise RecursionError.
Proof.
  intros Hp Hclosed Hcyc.
  destruct (css_emissions depth manifest p ap) as [r|e] eqn:Hwalk.
  - destruct Hcyc. eapply css_emissions_Return_acyclic; eauto.
  - destruct (css_emissions_Raise_reach _ _ _ _ Hwalk)
      as [[-> _]|(k & -> & Hk & Hreach)]; [reflexivity|].
    apply rtc_inv_r in Hreach as [<-|(n & Hn & Hedge)]; [congruence|].
    rewrite (Hclosed n k Hn Hedge) in Hk. discriminate.
Qed.

(** The checks [ranked] and [closed] are sound. *)
Lemma ranked_edge rank :
  ranked rank manifest = true ->
  forall a b, imports_edge manifest a b -> rank b < rank a.
Proof.
  unfold ranked. rewrite forallb_forall.
  intros Hall a b (e & Ha & Hb). apply dict_get_In in Ha.
  specialize (Hall _ Ha). cbn [fst snd] in Hall.
  rewrite forallb_forall in Hall. specialize (Hall _ Hb).
  now apply Nat.ltb_lt in Hall.
Qed.

Lemma ranked_acyclic rank : ranked rank manifest = true -> acyclic manifest.
Proof.
  intros Hr n Hcyc.
  assert (H : forall a b, tc (imports_edge manifest) a b -> rank b < rank a).
  { induction 1 as [a b Hab|a b c Hab _ IH].
    - eapply ranked_edge; eauto.
    - apply (ranked_edge _ Hr) in Hab. lia. }
  apply H in Hcyc. lia.
Qed.

Lemma closed_imports_closed :
  closed manifest = true -> imports_closed manifest.
Proof.
  unfold closed. rewrite forallb_forall.
  intros Hall a b (e & Ha & Hb). apply dict_get_In in Ha.
  specialize (Hall _ Ha). cbn [fst snd] in Hall.
  rewrite forallb_forall in Hall. now apply Hall.
Qed.

End Termination.

(** * The CSS dependency walk *)

Lemma precedes_map {A B : Type} (f : A -> B) x y l :
  precedes x y l -> precedes (f x) (f y) (map f l).
Proof.
  intros (l1 & l2 & l3 & ->). exists (map f l1), (map f l2), (map f l3).
  now rewrite !map_app, !map_cons, !map_app.
Qed.

(** C2. On an acyclic manifest, take the walk from an entry that is
    present, started with nothing processed. When every import is a key
    and the depth that is left is at least the number of entries, the
    walk returns. Whenever it returns, its tags are the tags of a trace
    of pairs [(n, c)] (the loop of entry [n] appended the tag of the CSS
    path [c]) in which no CSS path occurs twice; every tag is for a CSS
    path of an entry that the walk reaches, and every such CSS path has a
    tag; and before each tag that the loop of [n] appends stands the tag
    of every CSS path of every entry that [n] imports, directly or
    through other entries. *)
Theorem css_walk_each_css_once_imports_first
    env self config_key config manifest tag_generator depth path :
  loaded self config_key config manifest ->
  acyclic manifest ->
  dict_mem path manifest = true ->
  (imports_closed manifest -> length manifest <= depth ->
   exists r,
     _generate_css_files_of_asset env depth path [] tag_generator config_key
       self = (Return r, self)) /\
  (forall tags processed,
     fst (_generate_css_files_of_asset env depth path [] tag_generator
            config_key self) = Return (tags, processed) ->
     exists trace,
       tags = map (emission_tag env config tag_generator) trace /\
       css_emissions depth manifest path [] = Return (trace, processed) /\
       List.NoDup (map snd trace) /\
       (forall n c, In (n, c) trace ->
          rtc (imports_edge manifest) path n /\ has_css manifest n c) /\
       (forall n c, rtc (imports_edge manifest) path n ->
          has_css manifest n c -> In c (map snd trace)) /\
       (forall n c d c', In (n, c) trace ->
          tc (imports_edge manifest) n d -> has_css manifest d c' ->
          exists e,
            precedes (e, c') (n, c) trace /\
            precedes (emission_tag env config tag_generator (e, c'))
              (emission_tag env config tag_generator (n, c)) tags)).
Proof.
  intros Hloaded Hacyc Hpath.
  rewrite (walk_emissions env _ _ _ _ tag_generator Hloaded). split.
  - intros Hclosed Hdepth.
    destruct (css_emissions_returns manifest path) with
      (depth := depth) (p := path) (ap := [] : list string)
      (anc := [] : list string) as [r ->].
    + intros n i _. apply Hclosed.
    + intros n _. apply Hacyc.
    + apply rtc_refl.
    + exact Hpath.
    + constructor.
    + intros a [].
    + simpl. lia.
    + cbn [result_map]. eauto.
  - intros tags processed. cbn [fst].
    destruct (css_emissions depth manifest path []) as [[trace ap']|e]
      eqn:Hret; [|discriminate].
    cbn [result_map fst snd]. intros [= <- <-]. exists trace.
    destruct (css_emissions_inv manifest depth _ _ _ _ Hret)
      as (_ & Hem & Hpr & Hall & Hnd & Hord).
    split; [reflexivity|split; [reflexivity|split; [exact Hnd|]]].
    split; [|split].
    + intros n c Hn.
      destruct (Hem n c Hn) as ((r & [<-|[]] & Hreach) & Hcss & _). auto.
    + intros n c Hreach Hcss.
      destruct (Hpr c) as [[]|Hc]; [|exact Hc].
      apply (Hall path n c); [now left|exact Hreach|exact Hcss].
    + intros n c d c' Hn Htc Hcss.
      destruct (Hord n c d c' Hn Htc Hcss) as [[]|[e He]].
      exists e. split; [exact He|now apply precedes_map].
Qed.

Lemma css_walk_each_css_once_imports_first_witness :
  exists trace processed,
    _generate_css_files_of_asset
      (Example.environment (Document Example.diamond_manifest)) 4 "entry.js"
      [] _generate_stylesheet_tag "default"
      (Example.loader_with false Example.diamond_manifest) =
    (Return (map (emission_tag
                    (Example.environment (Document Example.diamond_manifest))
                    (Example.config false) _generate_stylesheet_tag) trace,
             processed),
     Example.loader_with false Example.diamond_manifest) /\
    List.NoDup (map snd trace).
Proof.
  destruct (css_walk_each_css_once_imports_first
              (Example.environment (Document Example.diamond_manifest))
              (Example.loader_with false Example.diamond_manifest)
              "default" (Example.config false) Example.diamond_manifest
              _generate_stylesheet_tag 4 "entry.js")
    as (Hreturns & Htrace).
  - split; reflexivity.
  - apply ranked_acyclic with (rank := Example.diamond_rank). reflexivity.
  - reflexivity.
  - destruct Hreturns as [[tags processed] Hr].
    + apply closed_imports_closed. reflexivity.
    + simpl. lia.
    + destruct (Htrace tags processed) as (trace & -> & _ & Hnd & _).
      * now rewrite Hr.
      * exists trace, processed. split; [exact Hr|exact Hnd].
Defined.

(** The walk on the shared stylesheet: [shared.css] is in the CSS of three
    entries and has one tag, where the first of them is walked. *)
Example css_emissions_diamond :
  css_emissions 4 Example.diamond_manifest "entry.js" [] =
  Return ([("base.js", "base.css"); ("left.js", "shared.css");
           ("left.js", "left.css"); ("right.js", "right.css");
           ("entry.js", "entry.css")],
          ["base.css"; "shared.css"; "left.css"; "base.css"; "right.css";
           "shared.css"; "shared.css"; "entry.css"]).
Proof. reflexivity. Qed.

(** C5. The walk records CSS paths, never entries. For the two entries
    of [Example.cyclic_manifest], which import each other, it raises
    [RecursionError] whatever depth is left.
    A walk that returns has reached no cycle. When no cycle can be
    reached and every import that can be reached is a key, the walk
    returns as soon as the depth that is left is the number of entries.
    What a walk that returns has added to [already_processed] are CSS
    paths of entries. *)
Theorem css_walk_returns_only_without_cycles :
  (tc (imports_edge Example.cyclic_manifest) "a.js" "a.js" /\
   forall env self config_key config tag_generator depth already_processed,
     loaded self config_key config Example.cyclic_manifest ->
     fst (_generate_css_files_of_asset env depth "a.js" already_processed
            tag_generator config_key self) = Raise RecursionError) /\
  (forall env self config_key config manifest tag_generator depth path
          already_processed r,
     loaded self config_key config manifest ->
     fst (_generate_css_files_of_asset env depth path already_processed
            tag_generator config_key self) = Return r ->
     acyclic_from manifest path /\
     forall c, In c (snd r) ->
       In c already_processed \/ exists n, has_css manifest n c) /\
  (forall env self config_key config manifest tag_generator depth path
          already_processed,
     loaded self config_key config manifest ->
     acyclic_from manifest path ->
     (forall n i, rtc (imports_edge manifest) path n ->
        imports_edge manifest n i -> dict_mem i manifest = true) ->
     dict_mem path manifest = true ->
     length manifest <= depth ->
     exists r,
       fst (_generate_css_files_of_asset env depth path already_processed
              tag_generator config_key self) = Return r).
Proof.
  split; [|split].
  - split.
    + apply tc_l with "b.js"; [|apply tc_once].
      * exists Example.a_js. split; [reflexivity|now left].
      * exists Example.b_js. split; [reflexivity|now left].
    + intros env self config_key config tag_generator depth ap Hloaded.
      rewrite (walk_emissions env _ _ _ _ tag_generator Hloaded). cbn [fst].
      enough (H : forall ap0,
        css_emissions depth Example.cyclic_manifest "a.js" ap0 =
          Raise RecursionError /\
        css_emissions depth Example.cyclic_manifest "b.js" ap0 =
          Raise RecursionError) by now rewrite (proj1 (H ap)).
      induction depth as [|depth IH]; intros ap0; [split; reflexivity|].
      split; cbn [css_emissions]; cbn.
      * now rewrite (proj2 (IH ap0)).
      * now rewrite (proj1 (IH ap0)).
  - intros env self config_key config manifest tag_generator depth path ap r
      Hloaded.
    rewrite (walk_emissions env _ _ _ _ tag_generator Hloaded). cbn [fst].
    destruct (css_emissions depth manifest path ap) as [[tr ap']|e] eqn:Hret;
      [|discriminate].
    intros [= <-]. split.
    + eapply css_emissions_Return_acyclic; eauto.
    + cbn [snd].
      destruct (css_emissions_inv manifest depth _ _ _ _ Hret)
        as (_ & Hem & Hpr & _).
      intros c Hc. destruct (Hpr c Hc) as [?|Hc']; [now left|right].
      apply in_map_iff in Hc' as ([n c0] & Heq & Hc'). simpl in Heq.
      subst c0. exists n. now destruct (Hem n c Hc') as (_ & Hcss & _).
  - intros env self config_key config manifest tag_generator depth path ap
      Hloaded Hacyc Hclosed Hpath Hdepth.
    rewrite (walk_emissions env _ _ _ _ tag_generator Hloaded). cbn [fst].
    destruct (css_emissions_returns manifest path Hclosed Hacyc depth path ap
                []) as [r ->].
    + apply rtc_refl.
    + exact Hpath.
    + constructor.
    + intros a [].
    + simpl. lia.
    + eauto.
Qed.

Lemma css_walk_returns_only_without_cycles_witness :
  acyclic_from Example.manifest "main.js" /\
  fst (_generate_css_files_of_asset
         (Example.environment (Document Example.cyclic_manifest)) 1000 "a.js"
         [] _generate_stylesheet_tag "default"
         (Example.loader_with false Example.cyclic_manifest)) =
  Raise RecursionError.
Proof.
  destruct css_walk_returns_only_without_cycles as ((_ & Hcyc) & Hret & Hacyc).
  split.
  - destruct (Hacyc (Example.environment (Document Example.manifest))
                (Example.loader_with false Example.manifest) "default"
                (Example.config false) Example.manifest
                _generate_stylesheet_tag 2 "main.js" []) as [r Hr].
    + split; reflexivity.
    + intros n _.
      apply (ranked_acyclic Example.manifest Example.rank). reflexivity.
    + intros n i _. apply closed_imports_closed. reflexivity.
    + reflexivity.
    + simpl. lia.
    + eapply Hret; [|exact Hr]. split; reflexivity.
  - eapply Hcyc. split; reflexivity.
Defined.

(** * The tag generators and the attributes of a script *)

Lemma str_append_assoc (a b c : string) : (a +:+ b) +:+ c = a +:+ b +:+ c.
Proof.
  induction a as [|x a IH]; [reflexivity|].
  change (String x ((a +:+ b) +:+ c) = String x (a +:+ b +:+ c)).
  now rewrite IH.
Qed.

Lemma str_append_nil_r (a : string) : a +:+ EmptyString = a.
Proof.
  induction a as [|x a IH]; [reflexivity|].
  change (String x (a +:+ EmptyString) = String x a). now rewrite IH.
Qed.

Lemma occurs_middle (before part after : string) :
  Str.occurs part (before +:+ part +:+ after).
Proof. now exists before, after. Qed.

Lemma occurs_end (before part : string) : Str.occurs part (before +:+ part).
Proof. exists before, EmptyString. now rewrite str_append_nil_r. Qed.


Lemma str_append_nil_l (a : string) : EmptyString +:+ a = a.
Proof. reflexivity. Qed.



(** *** The attributes as supplied *)



(** *** The defaults and the attributes of the caller *)




(** The value of a default when the caller supplies [(k, v)] first. *)
Lemma merged_value_cons (kd : string * string) k v rest :
  (fst kd, default (snd kd) (dict_get (fst kd) ((k, v) :: rest))) =
  if String.eqb (fst kd) k then (fst kd, v)
  else (fst kd, default (snd kd) (dict_get (fst kd) rest)).
Proof. cbn [dict_get]. now destruct (String.eqb (fst kd) k). Qed.






(** * The public methods *)

Lemma getitem_Some {V : Type} (d : dict V) k v self :
  dict_get k d = Some v -> getitem d k self = (Return v, self).
Proof. unfold getitem. now intros ->. Qed.

Lemma getitem_None {V : Type} (d : dict V) k self :
  dict_get k d = None -> getitem d k self = (Raise (KeyError k), self).
Proof. unfold getitem. now intros ->. Qed.

Lemma dict_mem_get {V : Type} (d : dict V) k :
  dict_mem k d = true -> exists v, dict_get k d = Some v.
Proof. unfold dict_mem. destruct (dict_get k d); [eauto|discriminate]. Qed.

Lemma for_each_Raise {A B : Type} (P : exception -> Prop) (l : list A)
    (body : B -> A -> M B) :
  (forall acc x self e self', body acc x self = (Raise e, self') -> P e) ->
  forall acc self e self',
    for_each l acc body self = (Raise e, self') -> P e.
Proof.
  intros Hbody. induction l as [|x l IH]; intros acc self e self';
    cbn [for_each]; [discriminate|].
  unfold bind at 1. destruct (body acc x self) as [[acc'|e'] self1] eqn:Hx.
  - apply IH.
  - intros [= <- <-]. eauto.
Qed.

Section Methods.
Variable env : Environment.

(** In production, on a path that is not a key. *)
Lemma generate_vite_asset_absent
    self path config_key kwargs config manifest self' :
  _configs self !! config_key = Some config ->
  dev_mode config = false ->
  _get_manifest env config_key self = (Return manifest, self') ->
  dict_mem path manifest = false ->
  exists manifest_path,
    get_computed_manifest_path env config = inr manifest_path /\
    generate_vite_asset env path config_key kwargs self =
    (Raise (RuntimeError
              (CannotFindInManifest path (fspath manifest_path))), self').
Proof.
  intros Hc Hdev Hm Hpath.
  destruct (get_computed_manifest_path_production env config Hdev)
    as [manifest_path Hmp].
  exists manifest_path. split; [exact Hmp|].
  unfold generate_vite_asset.
  rewrite (bind_Return _ _ _ _ _ (_get_config_eq _ _ _ Hc)), Hdev.
  rewrite (bind_Return _ _ _ _ _ Hm), Hpath. cbn [negb].
  unfold bind, or_TypeError. now rewrite Hmp.
Qed.

(** C6. In production, [generate_vite_asset] on a path that is not a
    key of the manifest raises the [RuntimeError] that cannot find the
    path: nothing is returned, and the message holds the path and the
    computed path of the manifest, which is computed without fail. *)
Theorem generate_vite_asset_missing_path
    self path config_key kwargs config manifest self' :
  _configs self !! config_key = Some config ->
  dev_mode config = false ->
  _get_manifest env config_key self = (Return manifest, self') ->
  dict_mem path manifest = false ->
  exists manifest_path,
    get_computed_manifest_path env config = inr manifest_path /\
    generate_vite_asset env path config_key kwargs self =
    (Raise (RuntimeError
              (CannotFindInManifest path (fspath manifest_path))), self') /\
    Str.occurs path
      (runtime_error_message
         (CannotFindInManifest path (fspath manifest_path))) /\
    Str.occurs (fspath manifest_path)
      (runtime_error_message
         (CannotFindInManifest path (fspath manifest_path))).
Proof.
  intros Hc Hdev Hm Hpath.
  destruct (generate_vite_asset_absent self path config_key kwargs config
              manifest self' Hc Hdev Hm Hpath) as (manifest_path & Hmp & H).
  exists manifest_path. split; [exact Hmp|split; [exact H|split]].
  - apply occurs_middle.
  - cbn [runtime_error_message]. rewrite <- !str_append_assoc.
    apply occurs_end.
Qed.

(** What [generate_vite_asset] does in production, case by case. *)
Lemma generate_vite_asset_production
    self path config_key kwargs config manifest self' :
  _configs self !! config_key = Some config ->
  dev_mode config = false ->
  _get_manifest env config_key self = (Return manifest, self') ->
  dict_mem path manifest = true ->
  generate_vite_asset env path config_key kwargs self =
  (match css_emissions (recursion_limit env) manifest path [] with
   | Return _ => Raise (AttributeError "dict" "imports")
   | Raise e => Raise e
   end, self').
Proof.
  intros Hc Hdev Hm Hpath.
  pose proof (loaded_after env _ _ _ _ _ Hc Hm) as Hloaded.
  unfold generate_vite_asset.
  rewrite (bind_Return _ _ _ _ _ (_get_config_eq _ _ _ Hc)), Hdev.
  rewrite (bind_Return _ _ _ _ _ Hm), Hpath. cbn [negb].
  unfold css_and_script_tags, _load_css_files_of_asset.
  unfold bind at 1 2.
  rewrite (walk_emissions env _ _ _ _ _generate_stylesheet_tag Hloaded).
  destruct (css_emissions _ _ _ _) as [r|e]; [|reflexivity].
  cbn [result_map]. destruct (dict_mem_get _ _ Hpath) as [entry Hentry].
  rewrite (bind_Return _ _ _ _ _ (getitem_Some _ _ _ _ Hentry)).
  reflexivity.
Qed.

(** C9, as amended. In production [generate_vite_asset] never returns.
    When the manifest cannot be had, it raises what [_get_manifest]
    raises. For a path that is not a key, it raises the [RuntimeError]
    that cannot find the path. For a path that is a key, the walk over
    the CSS files runs first, and the method raises what the walk
    raises: a [KeyError] for a path that the imports reach and that is
    no key, or a [RecursionError] after a chain of imports as long as the
    depth that Python allows, which, when that depth exceeds the number
    of entries, can only be for a cycle that the imports reach; with
    such a cycle, and every import a key, it is [RecursionError] that is
    raised. When the walk returns, the method raises the
    [AttributeError] of [manifest.imports]. The body of the loop that
    follows would raise the [AttributeError] of [self._manifest]. *)
Theorem generate_vite_asset_production_raises
    self path config_key kwargs config :
  _configs self !! config_key = Some config ->
  dev_mode config = false ->
  exists e self',
    generate_vite_asset env path config_key kwargs self = (Raise e, self') /\
    (forall e0 self0,
       _get_manifest env config_key self = (Raise e0, self0) ->
       e = e0 /\ self' = self0) /\
    (forall manifest self1,
       _get_manifest env config_key self = (Return manifest, self1) ->
       self' = self1 /\
       if dict_mem path manifest then
         match fst (_load_css_files_of_asset env (recursion_limit env) path
                      [] config_key self1) with
         | Return _ => e = AttributeError "dict" "imports"
         | Raise e' =>
             e = e' /\
             ((e' = RecursionError /\
               import_chain manifest path (recursion_limit env) /\
               (length manifest < recursion_limit env ->
                ~ acyclic_from manifest path)) \/
              (exists k,
                 e' = KeyError k /\ dict_mem k manifest = false /\
                 rtc (imports_edge manifest) path k))
         end /\
         ((forall n i, rtc (imports_edge manifest) path n ->
             imports_edge manifest n i -> dict_mem i manifest = true) ->
          ~ acyclic_from manifest path -> e = RecursionError)
       else
         exists manifest_path,
           get_computed_manifest_path env config = inr manifest_path /\
           e = RuntimeError
                 (CannotFindInManifest path (fspath manifest_path))) /\
    (forall tags dep self0,
       preload_import env config tags dep self0 =
       (Raise (AttributeError "DjangoViteAssetLoader" "_manifest"), self0)).
Proof.
  intros Hc Hdev.
  destruct (_get_manifest env config_key self) as [[manifest|e] self1]
    eqn:Hm.
  - pose proof (loaded_after env _ _ _ _ _ Hc Hm) as Hloaded.
    destruct (dict_mem path manifest) eqn:Hpath.
    + rewrite (generate_vite_asset_production _ _ _ _ _ _ _ Hc Hdev Hm Hpath).
      destruct (css_emissions _ _ _ _) as [r|e] eqn:Hwalk.
      * eexists _, _. split; [reflexivity|].
        split; [discriminate|split; [|reflexivity]].
        intros manifest' self2 [= <- <-]. split; [reflexivity|].
        rewrite Hpath. unfold _load_css_files_of_asset.
        rewrite (walk_emissions env _ _ _ _ _ Hloaded), Hwalk.
        split; [reflexivity|]. intros Hclosed Hcyc.
        rewrite (css_emissions_cycle_RecursionError manifest _ path []
                   Hpath Hclosed Hcyc) in Hwalk. discriminate.
      * eexists _, _. split; [reflexivity|].
        split; [discriminate|split; [|reflexivity]].
        intros manifest' self2 [= <- <-]. split; [reflexivity|].
        rewrite Hpath. unfold _load_css_files_of_asset.
        rewrite (walk_emissions env _ _ _ _ _ Hloaded), Hwalk.
        cbn [fst result_map]. split; [split; [reflexivity|]|].
        -- destruct (css_emissions_Raise_reach manifest _ _ _ _ Hwalk)
             as [[-> Hchain]|(k & -> & Hk & Hreach)].
           ++ left. split; [reflexivity|split; [exact Hchain|]].
              intros Hlimit.
              now apply (css_emissions_RecursionError_cycle manifest _ _ _
                           Hwalk).
           ++ right. eauto.
        -- intros Hclosed Hcyc.
           rewrite (css_emissions_cycle_RecursionError manifest _ path []
                      Hpath Hclosed Hcyc) in Hwalk. congruence.
    + destruct (generate_vite_asset_absent _ path _ kwargs _ _ _
                  Hc Hdev Hm Hpath) as (manifest_path & Hmp & ->).
      eexists _, _. split; [reflexivity|].
      split; [discriminate|split; [|reflexivity]].
      intros manifest' self2 [= <- <-]. split; [reflexivity|].
      rewrite Hpath. eauto.
  - exists e, self1. split; [|split; [|split; [discriminate|reflexivity]]].
    + unfold generate_vite_asset.
      rewrite (bind_Return _ _ _ _ _ (_get_config_eq _ _ _ Hc)), Hdev.
      now rewrite (bind_Raise _ _ _ _ _ Hm).
    + now intros e0 self0 [= <- <-].
Qed.

(** What the loop of [preload_vite_asset] over the imports raises. *)
Lemma preload_imports_Raise (manifest : Manifest) prefix l tags self e self' :
  for_each l tags
    (fun tags dependency_path =>
       let* dependency := getitem manifest dependency_path in
       let dependency_file := file dependency in
       let url := _generate_production_server_url env dependency_file prefix in
       ret (tags ++ [_generate_preload_tag url preload_attrs]))
    self = (Raise e, self') ->
  exists k, e = KeyError k.
Proof.
  apply (for_each_Raise (fun e => exists k, e = KeyError k)).
  clear. intros acc x self e self'.
  unfold bind, getitem. destruct (dict_get x manifest); [discriminate|].
  intros [= <- <-]. eauto.
Qed.

(** C10. [preload_vite_asset] reads [manifest[path]] before it looks at
    the mode and before it asks whether the path is a key: on a path
    that is not a key it raises [KeyError], and whatever the loader,
    the path and the mode, it never raises the [RuntimeError] that
    cannot find the path. *)
Theorem preload_vite_asset_absent_path_KeyError self path config_key :
  (forall config manifest self',
     _configs self !! config_key = Some config ->
     _get_manifest env config_key self = (Return manifest, self') ->
     dict_mem path manifest = false ->
     preload_vite_asset env path config_key self =
     (Raise (KeyError path), self')) /\
  (forall p manifest_path,
     fst (preload_vite_asset env path config_key self) <>
     Raise (RuntimeError (CannotFindInManifest p manifest_path))).
Proof.
  split.
  - intros config manifest self' Hc Hm Hpath. unfold preload_vite_asset.
    rewrite (bind_Return _ _ _ _ _ (_get_config_eq _ _ _ Hc)).
    rewrite (bind_Return _ _ _ _ _ Hm).
    apply bind_Raise, getitem_None.
    unfold dict_mem in Hpath. now destruct (dict_get path manifest).
  - intros p manifest_path. unfold preload_vite_asset.
    destruct (_configs self !! config_key) as [config|] eqn:Hc.
    2: { now rewrite (bind_Raise _ _ _ _ _ (_get_config_None _ _ Hc)). }
    rewrite (bind_Return _ _ _ _ _ (_get_config_eq _ _ _ Hc)).
    destruct (_get_manifest env config_key self) as [[manifest|e] self1]
      eqn:Hm.
    2: { rewrite (bind_Raise _ _ _ _ _ Hm). cbn [fst].
         apply _get_manifest_Raise in Hm
           as [_ [->|[(? & ? & ->)|(? & ->)]]]; discriminate. }
    rewrite (bind_Return _ _ _ _ _ Hm).
    pose proof (loaded_after env _ _ _ _ _ Hc Hm) as Hloaded.
    destruct (dict_get path manifest) as [entry|] eqn:Hentry.
    2: { now rewrite (bind_Raise _ _ _ _ _ (getitem_None _ _ _ Hentry)). }
    rewrite (bind_Return _ _ _ _ _ (getitem_Some _ _ _ _ Hentry)).
    destruct (dev_mode config); [|discriminate]. cbn [negb].
    unfold dict_mem. rewrite Hentry. cbn [negb].
    unfold _preload_css_files_of_asset, bind at 1.
    rewrite (walk_emissions env _ _ _ _ _ Hloaded).
    destruct (css_emissions _ _ _ _) as [r|e] eqn:Hwalk.
    2: { cbn [result_map fst].
         apply css_emissions_Raise in Hwalk as [->|(k & -> & _)];
           discriminate. }
    cbn [result_map]. unfold bind at 1.
    match goal with
    | |- context [for_each ?l ?acc ?body self1] =>
        destruct (for_each l acc body self1) as [[tags|e] self2] eqn:Hloop
    end; [discriminate|].
    apply preload_imports_Raise in Hloop as [k ->]. discriminate.
Qed.

(** In production, [generate_vite_asset_url] on a path that is a key
    reads [self._manifest]. *)
Lemma generate_vite_asset_url_production
    self path config_key config manifest self' :
  _configs self !! config_key = Some config ->
  dev_mode config = false ->
  _get_manifest env config_key self = (Return manifest, self') ->
  dict_mem path manifest = true ->
  generate_vite_asset_url env path config_key self =
  (Raise (AttributeError "DjangoViteAssetLoader" "_manifest"), self').
Proof.
  intros Hc Hdev Hm Hpath. unfold generate_vite_asset_url.
  rewrite (bind_Return _ _ _ _ _ (_get_config_eq _ _ _ Hc)), Hdev.
  rewrite (bind_Return _ _ _ _ _ Hm), Hpath. reflexivity.
Qed.

(** The loop of [generate_vite_legacy_polyfills] stops at the first key
    that contains the motif, and there it indexes a named tuple with a
    string. *)
Lemma legacy_polyfills_scan_match config scripts_attrs before path content
    after self :
  Forall (fun kv => Str.contains (legacy_polyfills_motif config) (fst kv)
                    = false) before ->
  Str.contains (legacy_polyfills_motif config) path = true ->
  legacy_polyfills_scan env config scripts_attrs
    (before ++ (path, content) :: after) self =
  (Raise (TypeError "tuple indices must be integers or slices, not str"),
   self).
Proof.
  intros Hbefore Hpath. induction Hbefore as [|[k v] before Hk _ IH].
  - cbn [app legacy_polyfills_scan]. now rewrite Hpath.
  - cbn [app legacy_polyfills_scan]. cbn [fst] in Hk. now rewrite Hk.
Qed.

Lemma legacy_polyfills_scan_no_match config scripts_attrs items self :
  Forall (fun kv => Str.contains (legacy_polyfills_motif config) (fst kv)
                    = false) items ->
  legacy_polyfills_scan env config scripts_attrs items self =
  (match get_computed_manifest_path env config with
   | inr manifest_path =>
       Raise (RuntimeError (LegacyPolyfillsNotFound (fspath manifest_path)))
   | inl message => Raise (TypeError message)
   end, self).
Proof.
  induction 1 as [|[k v] items Hk _ IH].
  - cbn [legacy_polyfills_scan]. unfold bind, or_TypeError.
    now destruct (get_computed_manifest_path env config).
  - cbn [legacy_polyfills_scan]. cbn [fst] in Hk. now rewrite Hk.
Qed.

(** In development, the legacy tags are empty: the asset without a look
    at the manifest, the polyfills once the manifest has been had. *)
Lemma generate_vite_legacy_asset_dev self path config_key kwargs config :
  _configs self !! config_key = Some config ->
  dev_mode config = true ->
  generate_vite_legacy_asset env path config_key kwargs self =
  (Return EmptyString, self).
Proof.
  intros Hc Hdev. unfold generate_vite_legacy_asset.
  now rewrite (bind_Return _ _ _ _ _ (_get_config_eq _ _ _ Hc)), Hdev.
Qed.

Lemma generate_vite_legacy_polyfills_dev
    self config_key kwargs config manifest self' :
  _configs self !! config_key = Some config ->
  dev_mode config = true ->
  _get_manifest env config_key self = (Return manifest, self') ->
  generate_vite_legacy_polyfills env config_key kwargs self =
  (Return EmptyString, self').
Proof.
  intros Hc Hdev Hm. unfold generate_vite_legacy_polyfills.
  rewrite (bind_Return _ _ _ _ _ (_get_config_eq _ _ _ Hc)).
  now rewrite (bind_Return _ _ _ _ _ Hm), Hdev.
Qed.

End Methods.

(** * The methods on the manifests of the examples *)

(** C1. On the manifest of the example of the specification, with the
    prefix [static/], in production, the walk over the CSS files returns
    the stylesheet of [shared.css] and then the stylesheet of
    [main.css], and [generate_vite_asset] then raises the
    [AttributeError] of [manifest.imports]: it returns no tag. *)
Theorem generate_vite_asset_example_raises :
  fst (_load_css_files_of_asset
         (Example.environment (Document Example.manifest)) 1000 "main.js" []
         "default" (Example.loader false)) =
  Return ([_generate_stylesheet_tag "static/shared.css";
           _generate_stylesheet_tag "static/main.css"],
          ["shared.css"; "main.css"]) /\
  fst (generate_vite_asset
         (Example.environment (Document Example.manifest)) "main.js"
         "default" [] (Example.loader false)) =
  Raise (AttributeError "dict" "imports").
Proof. split; vm_compute; reflexivity. Qed.

(** C3. In development, [preload_vite_asset] on a key of the manifest
    returns the preload tags and not the empty string, which it returns in
    production; and [generate_vite_legacy_polyfills] raises when the file
    of the manifest cannot be read. *)
Theorem dev_mode_preload_and_polyfills_example :
  fst (preload_vite_asset
         (Example.environment (Document Example.manifest)) "main.js"
         "default" (Example.loader true)) =
  Return (Str.join Str.newline
            [_generate_preload_tag "static/main.abc123.js" preload_attrs;
             _generate_stylesheet_preload_tag "static/shared.css";
             _generate_stylesheet_preload_tag "static/main.css";
             _generate_preload_tag "static/shared.def456.js" preload_attrs]) /\
  fst (preload_vite_asset
         (Example.environment (Document Example.manifest)) "main.js"
         "default" (Example.loader true)) <> Return EmptyString /\
  fst (preload_vite_asset
         (Example.environment (Document Example.manifest)) "main.js"
         "default" (Example.loader false)) = Return EmptyString /\
  fst (generate_vite_legacy_polyfills
         (Example.environment (Unreadable "No such file or directory"))
         "default" [] (Example.loader true)) =
  Raise (RuntimeError
           (CannotReadManifest "/srv/assets/manifest.json"
              "No such file or directory")).
Proof.
  repeat split; try (vm_compute; reflexivity).
  vm_compute. discriminate.
Qed.

(** C4. In production, on the manifest of the example,
    [generate_vite_asset_url] on a key raises the [AttributeError] of
    [self._manifest]: it returns no URL. *)
Theorem generate_vite_asset_url_example_raises :
  fst (generate_vite_asset_url
         (Example.environment (Document Example.manifest)) "main.js"
         "default" (Example.loader false)) =
  Raise (AttributeError "DjangoViteAssetLoader" "_manifest").
Proof. vm_compute. reflexivity. Qed.

(** C7. In production, on a manifest with two keys that contain the
    motif, [generate_vite_legacy_polyfills] raises the [TypeError] of
    [content] indexed with a string: it returns no tag. On a manifest
    without such a key it raises the [RuntimeError] that finds no
    polyfills. *)
Theorem generate_vite_legacy_polyfills_example_raises :
  fst (generate_vite_legacy_polyfills
         (Example.environment (Document Example.polyfills_manifest))
         "default" [] (Example.loader false)) =
  Raise (TypeError "tuple indices must be integers or slices, not str") /\
  fst (generate_vite_legacy_polyfills
         (Example.environment (Document Example.manifest))
         "default" [] (Example.loader false)) =
  Raise (RuntimeError
           (LegacyPolyfillsNotFound "/srv/www/static/manifest.json")).
Proof. split; vm_compute; reflexivity. Qed.

Lemma generate_vite_asset_missing_path_witness :
  generate_vite_asset (Example.environment (Document Example.manifest))
    "nonexistent.js" "default" [] (Example.loader false) =
  (Raise (RuntimeError
            (CannotFindInManifest "nonexistent.js"
               "/srv/www/static/manifest.json")),
   Example.loader_with false Example.manifest).
Proof.
  destruct (generate_vite_asset_missing_path
              (Example.environment (Document Example.manifest))
              (Example.loader false) "nonexistent.js" "default" []
              (Example.config false) Example.manifest
              (Example.loader_with false Example.manifest)
              eq_refl eq_refl eq_refl eq_refl)
    as (manifest_path & Hpath & H & _).
  injection Hpath as <-. exact H.
Defined.

(** The claim C9 as it stands fails on two entries that import each
    other: the path is a key, and [generate_vite_asset] raises the
    [RecursionError] of the walk over the CSS files, not the
    [AttributeError] of the module preloads. *)
Lemma generate_vite_asset_cyclic_manifest_counterexample :
  dict_mem "a.js" Example.cyclic_manifest = true /\
  fst (generate_vite_asset
         (Example.environment (Document Example.cyclic_manifest)) "a.js"
         "default" [] (Example.loader false)) = Raise RecursionError /\
  fst (generate_vite_asset
         (Example.environment (Document Example.cyclic_manifest)) "a.js"
         "default" [] (Example.loader false)) <>
  Raise (AttributeError "dict" "imports").
Proof.
  repeat split; try (vm_compute; reflexivity).
  vm_compute. discriminate.
Qed.

Lemma generate_vite_asset_production_raises_witness :
  exists e self',
    generate_vite_asset (Example.environment (Document Example.manifest))
      "main.js" "default" [] (Example.loader false) = (Raise e, self').
Proof.
  destruct (generate_vite_asset_production_raises
              (Example.environment (Document Example.manifest))
              (Example.loader false) "main.js" "default" []
              (Example.config false) eq_refl eq_refl)
    as (e & self' & H & _).
  exists e, self'. exact H.
Defined.

Lemma preload_vite_asset_absent_path_KeyError_witness :
  preload_vite_asset (Example.environment (Document Example.manifest))
    "nonexistent.js" "default" (Example.loader true) =
  (Raise (KeyError "nonexistent.js"),
   Example.loader_with true Example.manifest).
Proof.
  apply (proj1 (preload_vite_asset_absent_path_KeyError
                  (Example.environment (Document Example.manifest))
                  (Example.loader true) "nonexistent.js" "default")
           (Example.config true) Example.manifest
           (Example.loader_with true Example.manifest)
           eq_refl eq_refl eq_refl).
Defined.

(** * Further properties of the loader *)

(** ** URLs and paths *)

Lemma endswith_unfold s suffix :
  Str.endswith s suffix =
  String.eqb s suffix ||
  match s with
  | EmptyString => false
  | String _ s' => Str.endswith s' suffix
  end.
Proof. now destruct s. Qed.

Lemma endswith_append s t : Str.endswith (s +:+ t) t = true.
Proof.
  induction s as [|c s IH].
  - rewrite str_append_nil_l, endswith_unfold.
    now rewrite String.eqb_refl.
  - change (String c s +:+ t) with (String c (s +:+ t)).
    rewrite endswith_unfold, IH. apply orb_true_r.
Qed.

Lemma truthy_append s c t : Str.truthy (s +:+ String c t) = true.
Proof. now destruct s. Qed.

(** X1. The static URL of a configuration ends with a slash, whatever
    [settings.STATIC_URL], the prefix and [urljoin] are. *)
Theorem static_url_ends_with_slash env config :
  Str.endswith (static_url env config) "/" = true.
Proof.
  unfold static_url.
  destruct (Str.endswith (urljoin env (STATIC_URL env)
                            (static_url_prefix config)) "/") eqn:E.
  - exact E.
  - apply endswith_append.
Qed.

(** X2. In the URL of production a prefix counts with or without its
    last slash: a prefix that is not empty and does not end with a slash
    gives the URL of the prefix with the slash. With the empty prefix and
    without the static files application the URL is the path itself. *)
Theorem production_server_url_prefix env path prefix :
  (Str.truthy prefix = true -> Str.endswith prefix "/" = false ->
   _generate_production_server_url env path prefix =
   _generate_production_server_url env path (prefix +:+ "/")) /\
  (staticfiles_storage_url env = None ->
   _generate_production_server_url env path EmptyString = path).
Proof.
  split.
  - intros Htruthy Hslash. unfold _generate_production_server_url.
    now rewrite Htruthy, Hslash, truthy_append, endswith_append.
  - intros Hnone. unfold _generate_production_server_url.
    now rewrite Hnone.
Qed.

Lemma production_server_url_prefix_witness :
  _generate_production_server_url
    (Example.environment (Unreadable "missing")) "main.css" "static" =
  _generate_production_server_url
    (Example.environment (Unreadable "missing")) "main.css" "static/" /\
  _generate_production_server_url
    (Example.environment (Unreadable "missing")) "main.css" EmptyString =
  "main.css".
Proof.
  split.
  - apply (proj1 (production_server_url_prefix
                    (Example.environment (Unreadable "missing"))
                    "main.css" "static")); reflexivity.
  - apply (proj2 (production_server_url_prefix
                    (Example.environment (Unreadable "missing"))
                    "main.css" "static")). reflexivity.
Defined.

(** ** The cache of manifests *)

(** X3. A manifest that [_get_manifest] has returned stays: every later
    call for the same key returns it and leaves the loader as it is,
    whatever the file system has become; the configurations and the
    manifests of the other keys are untouched. A manifest that could not
    be had is not remembered: the loader is as before the call. *)
Theorem _get_manifest_caches env self config_key :
  (forall manifest self1,
     _get_manifest env config_key self = (Return manifest, self1) ->
     (forall env', _get_manifest env' config_key self1 =
                   (Return manifest, self1)) /\
     _configs self1 = _configs self /\
     forall other, other <> config_key ->
       _manifests self1 !! other = _manifests self !! other) /\
  (forall e self1,
     _get_manifest env config_key self = (Raise e, self1) ->
     self1 = self /\ _manifests self !! config_key = None).
Proof.
  split.
  - intros manifest self1 Hm.
    destruct (_get_manifest_Return env _ _ _ _ Hm) as [Hcached Hconfigs].
    split; [|split; [exact Hconfigs|]].
    + intros env'. now apply _get_manifest_cached.
    + intros other Hother. revert Hm. unfold _get_manifest.
      destruct (_manifests self !! config_key) as [m|]; [now intros [= _ <-]|].
      destruct (_configs self !! config_key) as [config|] eqn:Hc.
      * unfold bind at 1. rewrite (_parse_manifest_eq _ _ _ _ Hc).
        destruct (get_computed_manifest_path env config); [discriminate|].
        destruct (read_manifest_file env _); [discriminate|].
        unfold bind, ret, store_manifest. intros [= _ <-]. cbn [_manifests].
        now apply lookup_insert_ne.
      * unfold bind at 1, _parse_manifest.
        now rewrite (bind_Raise _ _ _ _ _ (_get_config_None _ _ Hc)).
  - intros e self1 Hm. split; [now apply _get_manifest_Raise in Hm|].
    revert Hm. unfold _get_manifest.
    now destruct (_manifests self !! config_key).
Qed.

Lemma _get_manifest_caches_witness :
  _get_manifest (Example.environment (Unreadable "gone")) "default"
    (Example.loader_with false Example.manifest) =
  (Return Example.manifest, Example.loader_with false Example.manifest).
Proof.
  apply (proj1 (_get_manifest_caches
                  (Example.environment (Document Example.manifest))
                  (Example.loader false) "default")
           Example.manifest (Example.loader_with false Example.manifest)
           eq_refl).
Defined.

(** ** The methods on a key without a configuration *)

(** X4. On a key that has no configuration every public method, and the
    walk over the CSS files, raises the [RuntimeError] that cannot find
    the configuration, before anything else is done: the loader is as
    before, no manifest is read, and the message holds the key. *)
Theorem methods_without_configuration env self path config_key kwargs :
  _configs self !! config_key = None ->
  let missing :=
    (Raise (RuntimeError (CannotFindConfiguration config_key)), self) in
  generate_vite_asset env path config_key kwargs self = missing /\
  preload_vite_asset env path config_key self = missing /\
  generate_vite_asset_url env path config_key self = missing /\
  generate_vite_legacy_polyfills env config_key kwargs self = missing /\
  generate_vite_legacy_asset env path config_key kwargs self = missing /\
  (forall depth already_processed tag_generator,
     _generate_css_files_of_asset env (S depth) path already_processed
       tag_generator config_key self =
     (Raise (RuntimeError (CannotFindConfiguration config_key)), self)) /\
  Str.occurs config_key
    (runtime_error_message (CannotFindConfiguration config_key)).
Proof.
  intros Hc missing.
  pose proof (_get_config_None self config_key Hc) as Hnone.
  repeat split;
    try (intros; apply bind_Raise; exact Hnone).
  cbn [runtime_error_message].
  exists ("Cannot find " +:+ Str.dquote), (Str.dquote +:+ " configuration").
  now rewrite !str_append_assoc.
Qed.

Lemma methods_without_configuration_witness :
  generate_vite_legacy_asset (Example.environment (Unreadable "missing"))
    "main.js" "admin" [] (Example.loader false) =
  (Raise (RuntimeError (CannotFindConfiguration "admin")),
   Example.loader false).
Proof.
  apply (methods_without_configuration
           (Example.environment (Unreadable "missing")) (Example.loader false)
           "main.js" "admin" [] eq_refl).
Defined.

(** ** The legacy asset, and the methods in development *)

(** [generate_vite_legacy_asset] in production, case by case. *)
Lemma generate_vite_legacy_asset_cases
    env self path config_key kwargs config manifest self1 :
  _configs self !! config_key = Some config ->
  dev_mode config = false ->
  _get_manifest env config_key self = (Return manifest, self1) ->
  exists manifest_path,
    get_computed_manifest_path env config = inr manifest_path /\
    generate_vite_legacy_asset env path config_key kwargs self =
    (match dict_get path manifest with
     | Some manifest_entry =>
         Return (_generate_script_tag
                   (_generate_production_server_url env (file manifest_entry)
                      (static_url_prefix config))
                   (nomodule_scripts_attrs kwargs))
     | None =>
         Raise (RuntimeError
                  (CannotFindInManifest path (fspath manifest_path)))
     end, self1).
Proof.
  intros Hc Hdev Hm.
  destruct (get_computed_manifest_path_production env config Hdev)
    as [manifest_path Hmp].
  exists manifest_path. split; [exact Hmp|].
  unfold generate_vite_legacy_asset.
  rewrite (bind_Return _ _ _ _ _ (_get_config_eq _ _ _ Hc)), Hdev.
  rewrite (bind_Return _ _ _ _ _ Hm). unfold dict_mem.
  destruct (dict_get path manifest) as [entry|] eqn:Hentry; cbn [negb].
  - now rewrite (bind_Return _ _ _ _ _ (getitem_Some _ _ _ _ Hentry)).
  - unfold bind, or_TypeError. now rewrite Hmp.
Qed.

(** X5. In production [generate_vite_legacy_asset] returns, for a path
    that is a key, one script tag: its source is the production URL of the
    file of the entry and its attributes are [nomodule], [crossorigin]
    and the keyword arguments. For a path that is not a key it raises the
    [RuntimeError] that cannot find the path, with the computed path of
    the manifest, which is computed without fail. Either way the manifest
    is in the cache afterwards, and the imports are not walked: a manifest
    with a cycle or with imports that are no keys makes no difference. *)
Theorem generate_vite_legacy_asset_production
    env self path config_key kwargs config manifest self1 :
  _configs self !! config_key = Some config ->
  dev_mode config = false ->
  _get_manifest env config_key self = (Return manifest, self1) ->
  (exists manifest_path,
     get_computed_manifest_path env config = inr manifest_path /\
     generate_vite_legacy_asset env path config_key kwargs self =
     (match dict_get path manifest with
      | Some manifest_entry =>
          Return (_generate_script_tag
                    (_generate_production_server_url env (file manifest_entry)
                       (static_url_prefix config))
                    (nomodule_scripts_attrs kwargs))
      | None =>
          Raise (RuntimeError
                   (CannotFindInManifest path (fspath manifest_path)))
      end, self1)) /\
  loaded self1 config_key config manifest.
Proof.
  intros Hc Hdev Hm. split.
  - now apply generate_vite_legacy_asset_cases.
  - now apply (loaded_after env self).
Qed.

Lemma generate_vite_legacy_asset_production_witness :
  generate_vite_legacy_asset
    (Example.environment (Document Example.cyclic_manifest)) "a.js" "default"
    [("defer", EmptyString)] (Example.loader false) =
  (Return (_generate_script_tag "static/a.111.js"
             [("nomodule", EmptyString); ("crossorigin", EmptyString);
              ("defer", EmptyString)]),
   Example.loader_with false Example.cyclic_manifest).
Proof.
  destruct (proj1 (generate_vite_legacy_asset_production
                     (Example.environment (Document Example.cyclic_manifest))
                     (Example.loader false) "a.js" "default"
                     [("defer", EmptyString)] (Example.config false)
                     Example.cyclic_manifest
                     (Example.loader_with false Example.cyclic_manifest)
                     eq_refl eq_refl eq_refl))
    as (manifest_path & _ & H).
  exact H.
Defined.

(** X6. In development [generate_vite_asset], [generate_vite_asset_url]
    and [generate_vite_legacy_asset] do not look at the manifest: with
    any file system, readable or not, and for any path, they return (the
    script tag of the URL of the development server, that URL, the empty
    string) and leave the loader and its cache as they are. *)
Theorem development_without_manifest
    env read self path config_key kwargs config :
  _configs self !! config_key = Some config ->
  dev_mode config = true ->
  generate_vite_asset (with_manifest_file env read) path config_key kwargs
    self =
  (Return (_generate_script_tag (_generate_vite_server_url env path config)
             (dict_update [("type", "module")] kwargs)), self) /\
  generate_vite_asset_url (with_manifest_file env read) path config_key self =
  (Return (_generate_vite_server_url env path config), self) /\
  generate_vite_legacy_asset (with_manifest_file env read) path config_key
    kwargs self = (Return EmptyString, self).
Proof.
  intros Hc Hdev. repeat split.
  - unfold generate_vite_asset.
    now rewrite (bind_Return _ _ _ _ _ (_get_config_eq _ _ _ Hc)), Hdev.
  - unfold generate_vite_asset_url.
    now rewrite (bind_Return _ _ _ _ _ (_get_config_eq _ _ _ Hc)), Hdev.
  - now apply generate_vite_legacy_asset_dev with config.
Qed.

Lemma development_without_manifest_witness :
  generate_vite_asset_url
    (with_manifest_file (Example.environment (Document Example.manifest))
       (fun _ => Unreadable "missing"))
    "nowhere.js" "default" (Example.loader true) =
  (Return "http://localhost:3000/static/nowhere.js", Example.loader true).
Proof.
  apply (proj1 (proj2 (development_without_manifest
                         (Example.environment (Document Example.manifest))
                         (fun _ => Unreadable "missing") (Example.loader true)
                         "nowhere.js" "default" [] (Example.config true)
                         eq_refl eq_refl))).
Defined.

(** ** The tags of [preload_vite_asset] *)

(** The walk returns only when every import of the entry is a key. *)
Lemma css_emissions_Return_imports depth manifest path ap r entry :
  css_emissions depth manifest path ap = Return r ->
  dict_get path manifest = Some entry ->
  Forall (fun i => dict_mem i manifest = true) (imports entry).
Proof.
  destruct depth as [|depth]; [discriminate|]. cbn [css_emissions].
  intros Hret Hentry. rewrite Hentry in Hret.
  destruct (fold_imports _ _ _) as [walked|e] eqn:Hfold; [|discriminate].
  apply List.Forall_forall. intros i Hi.
  destruct (fold_imports_each _ _ _ _ Hfold i Hi) as (ap' & ri & Hsub).
  destruct depth as [|depth]; [discriminate|]. cbn [css_emissions] in Hsub.
  unfold dict_mem. now destruct (dict_get i manifest).
Qed.

(** The loop of [preload_vite_asset] over imports that are keys. *)
Lemma preload_imports_Return env (manifest : Manifest) prefix l :
  Forall (fun i => dict_mem i manifest = true) l ->
  forall tags self,
  exists files,
    Forall2 (fun i f => exists dependency,
               dict_get i manifest = Some dependency /\ file dependency = f)
      l files /\
    for_each l tags
      (fun tags dependency_path =>
         let* dependency := getitem manifest dependency_path in
         let dependency_file := file dependency in
         let url := _generate_production_server_url env dependency_file prefix in
         ret (tags ++ [_generate_preload_tag url preload_attrs]))
      self =
    (Return (tags ++
             map (fun f => _generate_preload_tag
                             (_generate_production_server_url env f prefix)
                             preload_attrs) files), self).
Proof.
  induction 1 as [|i l Hi _ IH]; intros tags self.
  - exists []. split; [constructor|]. cbn. now rewrite app_nil_r.
  - destruct (dict_mem_get _ _ Hi) as [dependency Hd].
    destruct (IH (tags ++ [_generate_preload_tag
                             (_generate_production_server_url env
                                (file dependency) prefix) preload_attrs])
                 self) as (files & Hfiles & Hloop).
    exists (file dependency :: files). split.
    + constructor; [eauto|exact Hfiles].
    + cbn [for_each map].
      set (body := fun (tags : list string) (dependency_path : string) => _)
        in *.
      assert (Hbody : body tags i self =
                      (Return (tags ++ [_generate_preload_tag
                                 (_generate_production_server_url env
                                    (file dependency) prefix) preload_attrs]),
                       self)).
      { unfold body, bind, getitem. now rewrite Hd. }
      rewrite (bind_Return (body tags i) _ self _ self Hbody), Hloop.
      now rewrite <- app_assoc.
Qed.

(** X7. In development, on a path that is a key and whose walk over the
    CSS files returns, [preload_vite_asset] returns, joined by line
    feeds and in this order: the module preload of the file of the entry,
    the preload tags of the walk, and one module preload for the file of
    each direct import of the entry, in the order of [imports]. The loop
    over the imports cannot fail then: the walk has found each import in
    the manifest. *)
Theorem preload_vite_asset_development
    env self path config_key config manifest self1 manifest_entry css_tags
    processed :
  _configs self !! config_key = Some config ->
  dev_mode config = true ->
  _get_manifest env config_key self = (Return manifest, self1) ->
  dict_get path manifest = Some manifest_entry ->
  _preload_css_files_of_asset env (recursion_limit env) path [] config_key
    self1 = (Return (css_tags, processed), self1) ->
  exists files,
    Forall2 (fun i f => exists dependency,
               dict_get i manifest = Some dependency /\ file dependency = f)
      (imports manifest_entry) files /\
    preload_vite_asset env path config_key self =
    (Return
       (Str.join Str.newline
          ([_generate_preload_tag
              (_generate_production_server_url env (file manifest_entry)
                 (static_url_prefix config)) preload_attrs]
           ++ css_tags
           ++ map (fun f => _generate_preload_tag
                              (_generate_production_server_url env f
                                 (static_url_prefix config)) preload_attrs)
                files)), self1).
Proof.
  intros Hc Hdev Hm Hentry Hwalk.
  pose proof (loaded_after env _ _ _ _ _ Hc Hm) as Hloaded.
  assert (Himports : Forall (fun i => dict_mem i manifest = true)
                       (imports manifest_entry)).
  { unfold _preload_css_files_of_asset in Hwalk.
    rewrite (walk_emissions env _ _ _ _ _ Hloaded) in Hwalk.
    destruct (css_emissions (recursion_limit env) manifest path [])
      as [r|e] eqn:Hret; [|discriminate].
    eapply css_emissions_Return_imports; eauto. }
  destruct (preload_imports_Return env manifest (static_url_prefix config)
              _ Himports
              (([] ++ [_generate_preload_tag
                         (_generate_production_server_url env
                            (file manifest_entry) (static_url_prefix config))
                         preload_attrs]) ++ css_tags) self1)
    as (files & Hfiles & Hloop).
  exists files. split; [exact Hfiles|].
  unfold preload_vite_asset.
  rewrite (bind_Return _ _ _ _ _ (_get_config_eq _ _ _ Hc)).
  rewrite (bind_Return _ _ _ _ _ Hm).
  rewrite (bind_Return _ _ _ _ _ (getitem_Some _ _ _ _ Hentry)).
  rewrite Hdev. cbn [negb]. unfold dict_mem. rewrite Hentry. cbn [negb].
  rewrite (bind_Return _ _ _ _ _ Hwalk). cbn [fst].
  rewrite (bind_Return _ _ _ _ _ Hloop). reflexivity.
Qed.

Lemma preload_vite_asset_development_witness :
  exists files,
    preload_vite_asset (Example.environment (Document Example.manifest))
      "main.js" "default" (Example.loader true) =
    (Return
       (Str.join Str.newline
          ([_generate_preload_tag "static/main.abc123.js" preload_attrs]
           ++ [_generate_stylesheet_preload_tag "static/shared.css";
               _generate_stylesheet_preload_tag "static/main.css"]
           ++ map (fun f => _generate_preload_tag
                              (_generate_production_server_url
                                 (Example.environment
                                    (Document Example.manifest)) f "static/")
                              preload_attrs) files)),
     Example.loader_with true Example.manifest).
Proof.
  destruct (preload_vite_asset_development
              (Example.environment (Document Example.manifest))
              (Example.loader true) "main.js" "default" (Example.config true)
              Example.manifest (Example.loader_with true Example.manifest)
              Example.main_js
              [_generate_stylesheet_preload_tag "static/shared.css";
               _generate_stylesheet_preload_tag "static/main.css"]
              ["shared.css"; "main.css"]
              eq_refl eq_refl eq_refl eq_refl eq_refl)
    as (files & _ & H).
  exists files. exact H.
Defined.

(** ** More on the walk over the CSS files *)

Section Walk.
Variable manifest : Manifest.

Lemma fold_imports_deeper {T : Type}
    (walk walk' : string -> list string -> result (list T * list string)) l :
  (forall i ap, walk i ap <> Raise RecursionError -> walk' i ap = walk i ap) ->
  forall acc,
    fold_imports walk l acc <> Raise RecursionError ->
    fold_imports walk' l acc = fold_imports walk l acc.
Proof.
  intros Hwalk. induction l as [|i l IH]; intros acc; [reflexivity|].
  cbn [fold_imports]. intros Hfold.
  rewrite (Hwalk i (snd acc)).
  - destruct (walk i (snd acc)) as [sub|e]; [now apply IH|reflexivity].
  - intros Hi. now rewrite Hi in Hfold.
Qed.

Lemma css_emissions_S depth :
  forall path ap,
    css_emissions depth manifest path ap <> Raise RecursionError ->
    css_emissions (S depth) manifest path ap =
    css_emissions depth manifest path ap.
Proof.
  induction depth as [|depth IH]; intros path ap Hret; [now destruct Hret|].
  cbn [css_emissions] in *.
  destruct (dict_get path manifest) as [entry|]; [|reflexivity].
  rewrite (fold_imports_deeper (css_emissions depth manifest)
             (css_emissions (S depth) manifest)); [reflexivity|exact IH|].
  intros Hfold. now rewrite Hfold in Hret.
Qed.

Lemma css_emissions_deeper depth depth' path ap :
  depth <= depth' ->
  css_emissions depth manifest path ap <> Raise RecursionError ->
  css_emissions depth' manifest path ap =
  css_emissions depth manifest path ap.
Proof.
  induction 1 as [|depth' _ IH]; intros Hret; [reflexivity|].
  rewrite <- (IH Hret). apply css_emissions_S. now rewrite (IH Hret).
Qed.

(** Whether the walk returns, what it raises and what it appends to
    [already_processed] do not depend on [already_processed]. *)
Lemma fold_imports_shape {T : Type}
    (walk : string -> list string -> result (list T * list string)) l :
  (forall i,
     (exists e, forall ap, walk i ap = Raise e) \/
     (exists suffix, forall ap, exists tr,
        walk i ap = Return (tr, ap ++ suffix))) ->
  (exists e, forall tr0 ap, fold_imports walk l (tr0, ap) = Raise e) \/
  (exists suffix, forall tr0 ap, exists tr,
     fold_imports walk l (tr0, ap) = Return (tr, ap ++ suffix)).
Proof.
  intros Hwalk. induction l as [|i l IH].
  - right. exists []. intros tr0 ap. exists tr0. cbn. now rewrite app_nil_r.
  - destruct (Hwalk i) as [[e He]|[suffix1 H1]].
    + left. exists e. intros tr0 ap. cbn [fold_imports snd]. now rewrite He.
    + destruct IH as [[e He]|[suffix2 H2]].
      * left. exists e. intros tr0 ap. cbn [fold_imports snd].
        destruct (H1 ap) as [tr ->]. apply He.
      * right. exists (suffix1 ++ suffix2). intros tr0 ap.
        cbn [fold_imports snd]. destruct (H1 ap) as [tr1 ->]. cbn [fst snd].
        destruct (H2 (tr0 ++ tr1) (ap ++ suffix1)) as [tr ->].
        exists tr. now rewrite app_assoc.
Qed.

Lemma css_emissions_shape depth :
  forall path,
    (exists e, forall ap, css_emissions depth manifest path ap = Raise e) \/
    (exists suffix, forall ap, exists tr,
       css_emissions depth manifest path ap = Return (tr, ap ++ suffix)).
Proof.
  induction depth as [|depth IH]; intros path.
  - left. now exists RecursionError.
  - cbn [css_emissions].
    destruct (dict_get path manifest) as [entry|].
    + destruct (fold_imports_shape (css_emissions depth manifest)
                  (imports entry) IH) as [[e He]|[suffix Hs]].
      * left. exists e. intros ap. now rewrite He.
      * right. exists (suffix ++ css entry). intros ap.
        destruct (Hs [] ap) as [tr ->]. cbn [fst snd].
        rewrite css_loop_app.
        destruct (css_loop_own path (css entry) (ap ++ suffix)) as [Hsnd _].
        eexists. f_equal. f_equal. rewrite app_assoc. exact Hsnd.
    + left. now exists (KeyError path).
Qed.

End Walk.

(** X8. The result of the walk does not depend on the depth that is left
    once that depth is enough: a walk that does not raise
    [RecursionError] gives the same tags, the same list, or the same
    [KeyError], with any greater depth. *)
Theorem css_walk_deeper
    env self config_key config manifest tag_generator depth depth' path
    already_processed :
  loaded self config_key config manifest ->
  depth <= depth' ->
  fst (_generate_css_files_of_asset env depth path already_processed
         tag_generator config_key self) <> Raise RecursionError ->
  _generate_css_files_of_asset env depth' path already_processed
    tag_generator config_key self =
  _generate_css_files_of_asset env depth path already_processed
    tag_generator config_key self.
Proof.
  intros Hloaded Hle.
  rewrite !(walk_emissions env _ _ _ _ tag_generator Hloaded). cbn [fst].
  intros Hret. rewrite (css_emissions_deeper manifest depth depth'); auto.
  intros H. now rewrite H in Hret.
Qed.

Lemma css_walk_deeper_witness :
  _generate_css_files_of_asset
    (Example.environment (Document Example.diamond_manifest)) 1000
    "entry.js" [] _generate_stylesheet_tag "default"
    (Example.loader_with false Example.diamond_manifest) =
  _generate_css_files_of_asset
    (Example.environment (Document Example.diamond_manifest)) 3
    "entry.js" [] _generate_stylesheet_tag "default"
    (Example.loader_with false Example.diamond_manifest).
Proof.
  apply (css_walk_deeper
           (Example.environment (Document Example.diamond_manifest))
           (Example.loader_with false Example.diamond_manifest) "default"
           (Example.config false) Example.diamond_manifest).
  - split; reflexivity.
  - lia.
  - vm_compute. discriminate.
Defined.

(** X9. [_load_css_files_of_asset] and [_preload_css_files_of_asset]
    walk alike: from the same loader, path and list they raise the same
    exception, or they return the same list of processed paths and, URL by
    URL in the same order, one the stylesheet tag and the other the
    preload tag. *)
Theorem load_and_preload_walk_alike
    env self config_key config manifest depth path already_processed :
  loaded self config_key config manifest ->
  (exists e,
     _load_css_files_of_asset env depth path already_processed config_key
       self = (Raise e, self) /\
     _preload_css_files_of_asset env depth path already_processed config_key
       self = (Raise e, self)) \/
  (exists urls processed,
     _load_css_files_of_asset env depth path already_processed config_key
       self = (Return (map _generate_stylesheet_tag urls, processed), self) /\
     _preload_css_files_of_asset env depth path already_processed config_key
       self =
     (Return (map _generate_stylesheet_preload_tag urls, processed), self)).
Proof.
  intros Hloaded.
  unfold _load_css_files_of_asset, _preload_css_files_of_asset.
  rewrite !(walk_emissions env _ _ _ _ _ Hloaded).
  destruct (css_emissions depth manifest path already_processed)
    as [[trace processed]|e].
  - right.
    exists (map (fun emission =>
                   _generate_production_server_url env (snd emission)
                     (static_url_prefix config)) trace), processed.
    cbn [result_map fst snd]. now rewrite !map_map.
  - left. now exists e.
Qed.

Lemma load_and_preload_walk_alike_witness :
  exists urls processed,
    _load_css_files_of_asset
      (Example.environment (Document Example.manifest)) 2 "main.js" []
      "default" (Example.loader_with false Example.manifest) =
    (Return (map _generate_stylesheet_tag urls, processed),
     Example.loader_with false Example.manifest) /\
    _preload_css_files_of_asset
      (Example.environment (Document Example.manifest)) 2 "main.js" []
      "default" (Example.loader_with false Example.manifest) =
    (Return (map _generate_stylesheet_preload_tag urls, processed),
     Example.loader_with false Example.manifest).
Proof.
  destruct (load_and_preload_walk_alike
              (Example.environment (Document Example.manifest))
              (Example.loader_with false Example.manifest) "default"
              (Example.config false) Example.manifest 2 "main.js" [])
    as [(e & He & _)|H].
  - split; reflexivity.
  - exfalso. revert He. vm_compute. discriminate.
  - exact H.
Defined.

(** X10. The list [already_processed] decides which tags the walk
    appends and nothing else. A walk that returns returns from every
    list, and it appends to the list the same paths whatever the list
    holds. Started again from the list that it has returned, it returns
    no tag at all. *)
Theorem css_walk_again
    env self config_key config manifest tag_generator depth path
    already_processed tags processed :
  loaded self config_key config manifest ->
  _generate_css_files_of_asset env depth path already_processed
    tag_generator config_key self = (Return (tags, processed), self) ->
  exists appended,
    processed = already_processed ++ appended /\
    (forall other, exists tags',
       _generate_css_files_of_asset env depth path other tag_generator
         config_key self = (Return (tags', other ++ appended), self)) /\
    _generate_css_files_of_asset env depth path processed tag_generator
      config_key self = (Return ([], processed ++ appended), self).
Proof.
  intros Hloaded.
  rewrite !(walk_emissions env _ _ _ _ tag_generator Hloaded).
  destruct (css_emissions depth manifest path already_processed)
    as [[trace ap']|e] eqn:Hret; [|discriminate].
  cbn [result_map fst snd]. intros [= <- <-].
  destruct (css_emissions_shape manifest depth path)
    as [[e He]|[appended Happ]].
  { now rewrite He in Hret. }
  exists appended.
  destruct (Happ already_processed) as [tr Htr].
  rewrite Htr in Hret. injection Hret as -> <-.
  split; [reflexivity|split].
  - intros other. destruct (Happ other) as [tr' Htr'].
    rewrite (walk_emissions env _ _ _ _ tag_generator Hloaded), Htr'.
    cbn [result_map fst snd]. eauto.
  - destruct (Happ (already_processed ++ appended)) as [tr2 Htr2].
    rewrite Htr2. cbn [result_map fst snd].
    destruct tr2 as [|[n c] tr2]; [reflexivity|exfalso].
    destruct (css_emissions_inv manifest depth _ _ _ _ Htr)
      as (_ & _ & _ & Hall & _).
    destruct (css_emissions_inv manifest depth _ _ _ _ Htr2)
      as (_ & Hem & _).
    destruct (Hem n c (or_introl eq_refl))
      as ((r & [<-|[]] & Hreach) & Hcss & Hnew & _).
    apply Hnew. apply (Hall path n c); [now left|exact Hreach|exact Hcss].
Qed.

Lemma css_walk_again_witness :
  _generate_css_files_of_asset
    (Example.environment (Document Example.manifest)) 2 "main.js"
    ["shared.css"; "main.css"] _generate_stylesheet_tag "default"
    (Example.loader_with false Example.manifest) =
  (Return ([], ["shared.css"; "main.css"; "shared.css"; "main.css"]),
   Example.loader_with false Example.manifest).
Proof.
  destruct (css_walk_again
              (Example.environment (Document Example.manifest))
              (Example.loader_with false Example.manifest) "default"
              (Example.config false) Example.manifest
              _generate_stylesheet_tag 2 "main.js" []
              [_generate_stylesheet_tag "static/shared.css";
               _generate_stylesheet_tag "static/main.css"]
              ["shared.css"; "main.css"])
    as (appended & Happ & _ & Hagain).
  - split; reflexivity.
  - reflexivity.
  - cbn [app] in Happ. subst appended. exact Hagain.
Defined.

(** ** The legacy polyfills *)

Lemma prefix_append a b :
  String.prefix a b = true <-> exists c, b = a +:+ c.
Proof.
  revert b. induction a as [|x a IH]; intros b.
  - split; [|intros _; now destruct b]. intros _. now exists b.
  - destruct b as [|y b]; cbn [String.prefix].
    + split; [discriminate|]. now intros [c Hc].
    + destruct (ascii_dec x y) as [->|Hne].
      * rewrite IH. split; intros [c Hc]; exists c.
        -- now rewrite Hc.
        -- change (String y a +:+ c) with (String y (a +:+ c)) in Hc.
           now injection Hc.
      * split; [discriminate|]. intros [c Hc].
        change (String x a +:+ c) with (String x (a +:+ c)) in Hc.
        injection Hc as -> _. now destruct Hne.
Qed.

(** [Str.contains] decides whether the needle is a part of the string. *)
Lemma contains_occurs needle hay :
  Str.contains needle hay = true <-> Str.occurs needle hay.
Proof.
  split.
  - induction hay as [|x hay IH]; cbn [Str.contains];
      intros [Hp|Hr]%orb_true_iff; try discriminate.
    + apply prefix_append in Hp as [c Hc]. now exists EmptyString, c.
    + apply prefix_append in Hp as [c Hc]. now exists EmptyString, c.
    + destruct (IH Hr) as (before & after & ->).
      now exists (String x before), after.
  - intros (before & after & ->).
    induction before as [|x before IH].
    + rewrite str_append_nil_l.
      assert (Hp : String.prefix needle (needle +:+ after) = true)
        by (apply prefix_append; eauto).
      destruct (needle +:+ after); cbn [Str.contains]; now rewrite Hp.
    + change (String x before +:+ needle +:+ after)
        with (String x (before +:+ needle +:+ after)).
      cbn [Str.contains]. rewrite IH. apply orb_true_r.
Qed.

(** X11. In production, when the motif of the legacy polyfills is a part
    of no key of the manifest, [generate_vite_legacy_polyfills] raises
    the [RuntimeError] that finds no polyfills, whose message holds the
    computed path of the manifest; the manifest stays in the cache. *)
Theorem generate_vite_legacy_polyfills_not_found
    env self config_key kwargs config manifest self1 :
  _configs self !! config_key = Some config ->
  dev_mode config = false ->
  _get_manifest env config_key self = (Return manifest, self1) ->
  (forall key, In key (dict_keys manifest) ->
     ~ Str.occurs (legacy_polyfills_motif config) key) ->
  exists manifest_path,
    get_computed_manifest_path env config = inr manifest_path /\
    generate_vite_legacy_polyfills env config_key kwargs self =
    (Raise (RuntimeError (LegacyPolyfillsNotFound (fspath manifest_path))),
     self1) /\
    Str.occurs (fspath manifest_path)
      (runtime_error_message
         (LegacyPolyfillsNotFound (fspath manifest_path))) /\
    loaded self1 config_key config manifest.
Proof.
  intros Hc Hdev Hm Hkeys.
  destruct (get_computed_manifest_path_production env config Hdev)
    as [manifest_path Hmp].
  exists manifest_path.
  split; [exact Hmp|split; [|split; [apply occurs_end|]]].
  - unfold generate_vite_legacy_polyfills.
    rewrite (bind_Return _ _ _ _ _ (_get_config_eq _ _ _ Hc)).
    rewrite (bind_Return _ _ _ _ _ Hm), Hdev.
    rewrite legacy_polyfills_scan_no_match; [now rewrite Hmp|].
    apply List.Forall_forall.
    intros [key entry] Hin. cbn [fst].
    destruct (Str.contains (legacy_polyfills_motif config) key) eqn:E;
      [|reflexivity].
    exfalso. apply (Hkeys key); [|now apply contains_occurs].
    unfold dict_keys. change key with (fst (key, entry)). now apply in_map.
  - now apply (loaded_after env self).
Qed.

Lemma generate_vite_legacy_polyfills_not_found_witness :
  generate_vite_legacy_polyfills
    (Example.environment (Document Example.manifest))
    "default" [] (Example.loader false) =
  (Raise (RuntimeError
            (LegacyPolyfillsNotFound "/srv/www/static/manifest.json")),
   Example.loader_with false Example.manifest).
Proof.
  destruct (generate_vite_legacy_polyfills_not_found
              (Example.environment (Document Example.manifest))
              (Example.loader false) "default" [] (Example.config false)
              Example.manifest (Example.loader_with false Example.manifest)
              eq_refl eq_refl eq_refl)
    as (manifest_path & Hpath & H & _).
  - intros key [<-|[<-|[]]] Hoccurs;
      apply contains_occurs in Hoccurs; discriminate.
  - injection Hpath as <-. exact H.
Defined.

(** ** The singleton *)

Lemma register_configs_app good rest self :
  register_configs (good ++ rest) self =
  match register_configs good self with
  | (None, self') => register_configs rest self'
  | failed => failed
  end.
Proof.
  revert self. induction good as [|[k [c|values|]] good IH]; intros self;
    cbn [app register_configs]; try reflexivity.
  - apply IH.
  - destruct (new_DjangoViteConfig values); [apply IH|reflexivity].
Qed.

(** The loop over values that can all be read. *)
Lemma register_configs_readable items :
  Forall (fun kv => read_config_setting (snd kv) <> None) items ->
  List.NoDup (dict_keys items) ->
  forall self,
  exists self',
    register_configs items self = (None, self') /\
    _manifests self' = _manifests self /\
    forall k,
      _configs self' !! k =
      match dict_get k items with
      | Some setting => read_config_setting setting
      | None => _configs self !! k
      end.
Proof.
  induction 1 as [|[k0 setting] items Hread _ IH]; intros Hnd self.
  - exists self. repeat split.
  - unfold dict_keys in Hnd. cbn [map fst] in Hnd.
    apply List.NoDup_cons_iff in Hnd as [Hk0 Hnd]. cbn [snd] in Hread.
    assert (Hstep : exists config,
              read_config_setting setting = Some config /\
              register_configs ((k0, setting) :: items) self =
              register_configs items (store_config k0 config self)).
    { destruct setting as [c|values|]; cbn [register_configs].
      - eauto.
      - cbn [read_config_setting] in *.
        destruct (new_DjangoViteConfig values); [eauto|now destruct Hread].
      - now destruct Hread. }
    destruct Hstep as (config & Hconfig & ->).
    destruct (IH Hnd (store_config k0 config self))
      as (self' & Hreg & Hman & Hcfg).
    exists self'. split; [exact Hreg|split; [exact Hman|]].
    intros k. rewrite Hcfg. cbn [dict_get].
    destruct (String.eqb_spec k k0) as [->|Hne].
    + apply dict_get_None in Hk0. rewrite Hk0, Hconfig.
      apply lookup_insert_eq.
    + destruct (dict_get k items); [reflexivity|].
      cbn [store_config _configs]. now apply lookup_insert_ne.
Qed.

(** X13. With [settings.DJANGO_VITE] a dictionary whose values are
    configurations or dictionaries of keyword arguments that the
    constructor accepts, the first call of [instance()] returns a loader
    that has, for every key of the dictionary, the configuration of that
    key, has no configuration for any other key, and has parsed no
    manifest; and it keeps the loader in [_instance]. *)
Theorem instance_registers settings items :
  DJANGO_VITE settings = Some items ->
  Forall (fun kv => read_config_setting (snd kv) <> None) items ->
  List.NoDup (dict_keys items) ->
  exists self,
    instance settings None = (inr self, Some self) /\
    _manifests self = ∅ /\
    forall k,
      _configs self !! k =
      match dict_get k items with
      | Some setting => read_config_setting setting
      | None => None
      end.
Proof.
  intros Hitems Hread Hnd.
  destruct (register_configs_readable items Hread Hnd new_instance)
    as (self & Hreg & Hman & Hcfg).
  exists self. unfold instance. rewrite Hitems, Hreg.
  split; [reflexivity|split; [exact Hman|]].
  intros k. rewrite Hcfg. destruct (dict_get k items); [reflexivity|].
  apply lookup_empty.
Qed.

Lemma instance_registers_witness :
  exists self config,
    instance Site.settings None = (inr self, Some self) /\
    _configs self !! "admin" = Some config /\
    dev_server_port config = 5173%Z /\
    dev_server_host config = "localhost".
Proof.
  destruct (instance_registers Site.settings
              [("default", ConfigObject (Example.config false));
               ("admin", ConfigDict Site.admin_values)] eq_refl)
    as (self & Hinstance & _ & Hconfigs).
  - repeat constructor; discriminate.
  - repeat constructor; simpl; intuition congruence.
  - exists self,
      (match new_DjangoViteConfig Site.admin_values with
       | Return config => config
       | Raise _ => Example.config false
       end).
    split; [exact Hinstance|split; [exact (Hconfigs "admin")|]].
    split; reflexivity.
Defined.

(** X14. When a value of [settings.DJANGO_VITE] is neither a
    configuration nor a dictionary that the constructor accepts, the
    first call of [instance()] raises (the [RuntimeError] that cannot
    read the configuration of that key, when the value is of another
    type), but [_instance] is set by then: it holds the configurations of
    the keys before that one and no other. Every later call returns this
    loader without reading the settings, so that the key of the value
    and the keys after it have no configuration. *)
Theorem instance_after_failure settings good config_key setting rest :
  DJANGO_VITE settings = Some (good ++ (config_key, setting) :: rest) ->
  Forall (fun kv => read_config_setting (snd kv) <> None) good ->
  List.NoDup (dict_keys good) ->
  read_config_setting setting = None ->
  exists e self,
    instance settings None = (inl e, Some self) /\
    (setting = ConfigOther -> e = CannotReadConfiguration config_key) /\
    (forall k,
       _configs self !! k =
       match dict_get k good with
       | Some setting' => read_config_setting setting'
       | None => None
       end) /\
    forall settings', instance settings' (Some self) = (inr self, Some self).
Proof.
  intros Hitems Hread Hnd Hbad.
  destruct (register_configs_readable good Hread Hnd new_instance)
    as (self & Hreg & _ & Hcfg).
  assert (Hstop : exists e,
            register_configs ((config_key, setting) :: rest) self =
            (Some e, self) /\
            (setting = ConfigOther -> e = CannotReadConfiguration config_key)).
  { destruct setting as [c|values|]; cbn [register_configs].
    - discriminate.
    - cbn [read_config_setting] in Hbad.
      destruct (new_DjangoViteConfig values) as [c|e]; [discriminate|].
      exists (Raised e). split; [reflexivity|discriminate].
    - eauto. }
  destruct Hstop as (e & Hstop & He).
  exists e, self. unfold instance at 1.
  rewrite Hitems, register_configs_app, Hreg, Hstop.
  split; [reflexivity|split; [exact He|split; [|reflexivity]]].
  intros k. rewrite Hcfg. destruct (dict_get k good); [reflexivity|].
  apply lookup_empty.
Qed.

Lemma instance_after_failure_witness :
  exists self,
    instance Site.broken_settings None =
    (inl (CannotReadConfiguration "admin"), Some self) /\
    _configs self !! "shop" = None /\
    instance Site.settings (Some self) = (inr self, Some self).
Proof.
  destruct (instance_after_failure Site.broken_settings
              [("default", ConfigObject (Example.config false))]
              "admin" ConfigOther [("shop", ConfigDict Site.admin_values)]
              eq_refl)
    as (e & self & Hinstance & He & Hconfigs & Hlater).
  - repeat constructor. discriminate.
  - repeat constructor. simpl. tauto.
  - reflexivity.
  - exists self. rewrite (He eq_refl) in Hinstance.
    split; [exact Hinstance|split; [exact (Hconfigs "shop")|apply Hlater]].
Defined.

(** X15. Without [settings.DJANGO_VITE] the loader has one
    configuration, under the key [default], made of the older settings:
    the assets path is [DJANGO_VITE_ASSETS_PATH], each other field is its
    setting or else the default of the class, and the URL of React
    Refresh is always the default, for no setting names it. Without
    [DJANGO_VITE_ASSETS_PATH] the call raises [TypeError] and leaves in
    [_instance] a loader without any configuration. *)
Theorem instance_legacy_settings settings :
  DJANGO_VITE settings = None ->
  (forall path,
     DJANGO_VITE_ASSETS_PATH settings = Some path ->
     exists self config,
       instance settings None = (inr self, Some self) /\
       _configs self !! DEFAULT_CONFIG_KEY = Some config /\
       (forall k, k <> DEFAULT_CONFIG_KEY -> _configs self !! k = None) /\
       _manifests self = ∅ /\
       assets_path config = path /\
       dev_mode config = default false (DJANGO_VITE_DEV_MODE settings) /\
       dev_server_protocol config =
         default "http" (DJANGO_VITE_DEV_SERVER_PROTOCOL settings) /\
       dev_server_host config =
         default "localhost" (DJANGO_VITE_DEV_SERVER_HOST settings) /\
       dev_server_port config =
         default 3000%Z (DJANGO_VITE_DEV_SERVER_PORT settings) /\
       ws_client_url config =
         default "@vite/client" (DJANGO_VITE_WS_CLIENT_URL settings) /\
       static_url_prefix config =
         default EmptyString (DJANGO_VITE_STATIC_URL_PREFIX settings) /\
       manifest_path config =
         default (IsStr EmptyString) (DJANGO_VITE_MANIFEST_PATH settings) /\
       legacy_polyfills_motif config =
         default "legacy-polyfills"
           (DJANGO_VITE_LEGACY_POLYFILLS_MOTIF settings) /\
       react_refresh_url config = "@react-refresh") /\
  (DJANGO_VITE_ASSETS_PATH settings = None ->
   exists message,
     instance settings None =
     (inl (Raised (TypeError message)), Some new_instance) /\
     forall k, _configs new_instance !! k = None).
Proof.
  intros Hnew. split.
  - intros path Hpath. unfold instance, new_DjangoViteConfig.
    rewrite Hnew. cbn [legacy_config_values unexpected_keywords
                       given_assets_path]. rewrite Hpath.
    eexists _, _. split; [reflexivity|].
    split; [apply lookup_insert_eq|].
    split; [|repeat split].
    intros k Hk. cbn [store_config _configs].
    rewrite lookup_insert_ne by congruence. apply lookup_empty.
  - intros Hpath. unfold instance, new_DjangoViteConfig.
    rewrite Hnew. cbn [legacy_config_values unexpected_keywords
                       given_assets_path]. rewrite Hpath.
    eexists. split; [reflexivity|]. intros k. apply lookup_empty.
Qed.

Lemma instance_legacy_settings_witness :
  exists self config,
    instance Site.legacy_settings None = (inr self, Some self) /\
    _configs self !! "default" = Some config /\
    static_url_prefix config = "static" /\
    react_refresh_url config = "@react-refresh".
Proof.
  destruct (proj1 (instance_legacy_settings Site.legacy_settings eq_refl)
              (IsPath "/srv/assets") eq_refl)
    as (self & config & Hinstance & Hconfig & _ & _ & _ & _ & _ & _ & _ & _
        & Hprefix & _ & _ & Hrefresh).
  exists self, config.
  split; [exact Hinstance|split; [exact Hconfig|]].
  split; [exact Hprefix|exact Hrefresh].
Defined.

(** ** The template tags *)

(** X16. The tags work on one loader and read the file of the manifest
    at most once for a key. After a call of [vite_legacy_asset] that has
    returned a tag, [_instance] holds a loader with the configuration of
    the key and, in production, with the parsed manifest. Every later
    call for the same key, in any environment and with any settings,
    path and keyword arguments, leaves [_instance] as it is and works on
    that configuration and that manifest: in development it returns the
    empty string; in production it returns the script tag of the entry at
    the path, with the URL of the environment of the call, or raises the
    [RuntimeError] that cannot find the path, with the path of the
    manifest computed in the environment of the call. The file system and
    [settings.DJANGO_VITE] at the time of the call make no difference. *)
Theorem vite_legacy_asset_reads_once
    env settings path config_key kwargs _instance tag _instance1 :
  vite_legacy_asset env settings path config_key kwargs _instance =
    (inr tag, _instance1) ->
  exists self1 config,
    _instance1 = Some self1 /\
    _configs self1 !! config_key = Some config /\
    (dev_mode config = true ->
     forall env' settings' path' kwargs',
       vite_legacy_asset env' settings' path' config_key kwargs' _instance1 =
       (inr EmptyString, _instance1)) /\
    (dev_mode config = false ->
     exists manifest,
       _manifests self1 !! config_key = Some manifest /\
       forall env' settings' path' kwargs',
       exists manifest_path,
         get_computed_manifest_path env' config = inr manifest_path /\
         vite_legacy_asset env' settings' path' config_key kwargs'
           _instance1 =
         (match dict_get path' manifest with
          | Some manifest_entry =>
              inr (_generate_script_tag
                     (_generate_production_server_url env'
                        (file manifest_entry) (static_url_prefix config))
                     (nomodule_scripts_attrs kwargs'))
          | None =>
              inl (Raised
                     (RuntimeError
                        (CannotFindInManifest path' (fspath manifest_path))))
          end, _instance1)) /\
    forall env' read' settings' settings'' path' kwargs',
      vite_legacy_asset (with_manifest_file env' read') settings' path'
        config_key kwargs' _instance1 =
      vite_legacy_asset env' settings'' path' config_key kwargs' _instance1.
Proof.
  unfold vite_legacy_asset, on_instance.
  destruct (instance settings _instance) as [[e|self] cls0] eqn:Hinstance;
    [discriminate|].
  destruct (generate_vite_legacy_asset env path config_key kwargs self)
    as [[t|e] self1] eqn:Hcall; [|discriminate].
  intros [= <- <-].
  destruct (_configs self !! config_key) as [config|] eqn:Hc.
  2: { unfold generate_vite_legacy_asset in Hcall.
       now rewrite (bind_Raise _ _ _ _ _ (_get_config_None _ _ Hc)) in Hcall. }
  destruct (dev_mode config) eqn:Hdev.
  - rewrite (generate_vite_legacy_asset_dev env _ _ _ _ _ Hc Hdev) in Hcall.
    injection Hcall as _ <-.
    exists self, config. split; [reflexivity|split; [exact Hc|]].
    split; [|split; [intros Hprod; congruence|]].
    + intros _ env' settings' path' kwargs'. cbn [instance].
      now rewrite (generate_vite_legacy_asset_dev env' _ _ _ _ _ Hc Hdev).
    + intros env' read' settings' settings'' path' kwargs'. cbn [instance].
      now rewrite !(generate_vite_legacy_asset_dev _ _ _ _ _ _ Hc Hdev).
  - destruct (_get_manifest env config_key self) as [[manifest|e] self2]
      eqn:Hm.
    2: { unfold generate_vite_legacy_asset in Hcall.
         rewrite (bind_Return _ _ _ _ _ (_get_config_eq _ _ _ Hc)), Hdev
           in Hcall.
         now rewrite (bind_Raise _ _ _ _ _ Hm) in Hcall. }
    destruct (generate_vite_legacy_asset_cases env self path config_key
                kwargs config manifest self2 Hc Hdev Hm)
      as (manifest_path0 & _ & Hfirst).
    rewrite Hfirst in Hcall. injection Hcall as _ <-.
    destruct (loaded_after env _ _ _ _ _ Hc Hm) as [Hc2 Hm2].
    assert (Hlater : forall env' settings' path' kwargs',
      exists manifest_path,
        get_computed_manifest_path env' config = inr manifest_path /\
        match instance settings' (Some self2) with
        | (inl e0, _instance') => (inl e0, _instance')
        | (inr self0, _) =>
            match
              generate_vite_legacy_asset env' path' config_key kwargs' self0
            with
            | (Return a, self') => (inr a, Some self')
            | (Raise e0, self') => (inl (Raised e0), Some self')
            end
        end =
        (match dict_get path' manifest with
         | Some manifest_entry =>
             inr (_generate_script_tag
                    (_generate_production_server_url env'
                       (file manifest_entry) (static_url_prefix config))
                    (nomodule_scripts_attrs kwargs'))
         | None =>
             inl (Raised
                    (RuntimeError
                       (CannotFindInManifest path' (fspath manifest_path))))
         end, Some self2)).
    { intros env' settings' path' kwargs'. cbn [instance].
      destruct (generate_vite_legacy_asset_cases env' self2 path' config_key
                  kwargs' config manifest self2 Hc2 Hdev
                  (_get_manifest_cached _ _ _ _ Hm2))
        as (manifest_path & Hmp & ->).
      exists manifest_path. split; [exact Hmp|].
      now destruct (dict_get path' manifest). }
    exists self2, config. split; [reflexivity|split; [exact Hc2|]].
    split; [intros Hdevelopment; congruence|split].
    + intros _. exists manifest. split; [exact Hm2|exact Hlater].
    + intros env' read' settings' settings'' path' kwargs'.
      destruct (Hlater (with_manifest_file env' read') settings' path'
                  kwargs') as (manifest_path1 & Hmp1 & ->).
      destruct (Hlater env' settings'' path' kwargs')
        as (manifest_path2 & Hmp2 & ->).
      change (get_computed_manifest_path env' config = inr manifest_path1)
        in Hmp1.
      rewrite Hmp2 in Hmp1. injection Hmp1 as <-. reflexivity.
Qed.

Lemma vite_legacy_asset_reads_once_witness :
  vite_legacy_asset
    (with_manifest_file (Example.environment (Document Example.manifest))
       (fun _ => Unreadable "gone"))
    Site.broken_settings "shared.js" "default" []
    (snd (vite_legacy_asset
            (Example.environment (Document Example.manifest))
            Site.settings "main.js" "default" [] None)) =
  vite_legacy_asset (Example.environment (Document Example.manifest))
    Site.settings "shared.js" "default" []
    (snd (vite_legacy_asset
            (Example.environment (Document Example.manifest))
            Site.settings "main.js" "default" [] None)).
Proof.
  destruct (vite_legacy_asset_reads_once
              (Example.environment (Document Example.manifest))
              Site.settings "main.js" "default" [] None
              (_generate_script_tag "static/main.abc123.js"
                 [("nomodule", EmptyString); ("crossorigin", EmptyString)])
              (snd (vite_legacy_asset
                      (Example.environment (Document Example.manifest))
                      Site.settings "main.js" "default" [] None))
              eq_refl)
    as (self1 & config & _ & _ & _ & _ & Hsame).
  apply Hsame.
Defined.

(** ** The path of the manifest in development *)

(** X17. In development the manifest is looked for under the assets
    path, and only a [Path] can be joined to [manifest.json]. With a
    string for the assets path and no path for the manifest,
    [get_computed_manifest_path] raises [TypeError], inside [try] and
    again in the handler of [_parse_manifest]: [_get_manifest], and with
    it [preload_vite_asset] and [generate_vite_legacy_polyfills], raise
    that [TypeError] whatever the file system holds, and the loader is
    as before. With a [Path] for the assets path, [_get_manifest] reads
    the file [manifest.json] under it. *)
Theorem development_manifest_path env self config_key config :
  _configs self !! config_key = Some config ->
  dev_mode config = true ->
  path_truthy (manifest_path config) = false ->
  _manifests self !! config_key = None ->
  (forall text,
     assets_path config = IsStr text ->
     exists message,
       get_computed_manifest_path env config = inl message /\
       _get_manifest env config_key self = (Raise (TypeError message), self) /\
       (forall path,
          preload_vite_asset env path config_key self =
          (Raise (TypeError message), self)) /\
       (forall kwargs,
          generate_vite_legacy_polyfills env config_key kwargs self =
          (Raise (TypeError message), self))) /\
  (forall text,
     assets_path config = IsPath text ->
     get_computed_manifest_path env config =
       inr (IsPath (path_join env text "manifest.json")) /\
     fst (_get_manifest env config_key self) =
     match read_manifest_file env (path_join env text "manifest.json") with
     | Document members => Return (dict_update [] members)
     | Unreadable error =>
         Raise (RuntimeError
                  (CannotReadManifest (path_join env text "manifest.json")
                     error))
     end).
Proof.
  intros Hc Hdev Hmp Hm.
  assert (Hget : _get_manifest env config_key self =
                 (let* manifest := _parse_manifest env config_key in
                  let* _ := store_manifest config_key manifest in
                  ret manifest) self).
  { unfold _get_manifest. now rewrite Hm. }
  split.
  - intros text Hassets.
    assert (Hpath : get_computed_manifest_path env config =
                    inl "unsupported operand type(s) for /: 'str' and 'str'").
    { unfold get_computed_manifest_path, static_root.
      now rewrite Hmp, Hdev, Hassets. }
    assert (Hraise : _get_manifest env config_key self =
              (Raise (TypeError
                        "unsupported operand type(s) for /: 'str' and 'str'"),
               self)).
    { rewrite Hget. apply bind_Raise.
      now rewrite (_parse_manifest_eq env _ _ _ Hc), Hpath. }
    eexists. split; [exact Hpath|split; [exact Hraise|split]].
    + intros path. unfold preload_vite_asset.
      rewrite (bind_Return _ _ _ _ _ (_get_config_eq _ _ _ Hc)).
      now apply bind_Raise.
    + intros kwargs. unfold generate_vite_legacy_polyfills.
      rewrite (bind_Return _ _ _ _ _ (_get_config_eq _ _ _ Hc)).
      now apply bind_Raise.
  - intros text Hassets.
    assert (Hpath : get_computed_manifest_path env config =
                    inr (IsPath (path_join env text "manifest.json"))).
    { unfold get_computed_manifest_path, static_root.
      now rewrite Hmp, Hdev, Hassets. }
    split; [exact Hpath|].
    rewrite Hget. unfold bind at 1.
    rewrite (_parse_manifest_eq env _ _ _ Hc), Hpath. cbn [fspath].
    now destruct (read_manifest_file env _).
Qed.

Lemma development_manifest_path_witness :
  preload_vite_asset (Example.environment (Document Example.manifest))
    "main.js" "admin" (store_config "admin" Site.admin_config new_instance) =
  (Raise (TypeError "unsupported operand type(s) for /: 'str' and 'str'"),
   store_config "admin" Site.admin_config new_instance).
Proof.
  destruct (proj1 (development_manifest_path
                     (Example.environment (Document Example.manifest))
                     (store_config "admin" Site.admin_config new_instance)
                     "admin" Site.admin_config
                     eq_refl eq_refl eq_refl eq_refl)
              "/srv/admin" eq_refl)
    as (message & Hpath & _ & Hpreload & _).
  injection Hpath as <-. apply Hpreload.
Defined.
